(** * Datastar TypeScript SDK: event generation and signal reading

    A shallow embedding of [src/consts.ts],
    [src/abstractServerSentEventGenerator.ts] and
    [src/node/serverSentEventGenerator.ts], followed by the properties of the
    SDK's specification that concern them.

    Conventions of the embedding.
    - A JavaScript string is a [string]; each character is read as one code
      unit below U+0100, so the white space that [String.prototype.trim]
      strips is TAB, LF, VT, FF, CR, SPACE and NBSP.
    - A JavaScript number is a [Number]: NaN, an infinity, or a safe integer
      (of magnitude below 2^53), the numbers whose text is their decimal
      numeral.  Fractions and larger magnitudes are not represented.
    - An object is the list of its own enumerable properties in
      [Object.keys] order.  The values are those of JSON: objects and arrays
      are plain ones, inherit from [Object.prototype] and [Array.prototype],
      and hold no functions.
    - A [throw] is the [Throw] outcome of the [Completion] monad; a promise
      is its settled outcome.
    - The built-ins [JSON.parse] and [new URL] are parameters of
      [readSignals]. *)

From Stdlib Require Import String Ascii List ZArith Bool Lia.
From Stdlib Require Import DecimalString Eqdep_dec.
Import ListNotations.

Local Open Scope string_scope.
Local Open Scope list_scope.
Local Open Scope Z_scope.

Infix "+++" := String.append (at level 60, right associativity).

(* ================================================================= *)
(** ** The JavaScript fragment the SDK relies on *)

Module JS.

(** The line feed and the double quote, which string literals cannot hold. *)
Definition LF_char : ascii := ascii_of_nat 10.
Definition LF : string := String LF_char EmptyString.
Definition DQ : string := String (ascii_of_nat 34) EmptyString.

(** White space and line terminators, as [trim] understands them. *)
Definition isWhiteSpace (c : ascii) : bool :=
  let n := nat_of_ascii c in
  (Nat.eqb n 9 || Nat.eqb n 10 || Nat.eqb n 11 || Nat.eqb n 12 ||
   Nat.eqb n 13 || Nat.eqb n 32 || Nat.eqb n 160)%bool.

Fixpoint trimStart (s : string) : string :=
  match s with
  | EmptyString => EmptyString
  | String c s' => if isWhiteSpace c then trimStart s' else s
  end.

Fixpoint trimEnd (s : string) : string :=
  match s with
  | EmptyString => EmptyString
  | String c s' =>
      match trimEnd s' with
      | EmptyString => if isWhiteSpace c then EmptyString else String c EmptyString
      | r => String c r
      end
  end.

(** [s.trim()] *)
Definition trim (s : string) : string := trimEnd (trimStart s).

(** Every character of [s] is white space. *)
Fixpoint blank (s : string) : bool :=
  match s with
  | EmptyString => true
  | String c s' => isWhiteSpace c && blank s'
  end.

(** [s.split(sep)] for a one-character separator. *)
Fixpoint split (sep : ascii) (s : string) : list string :=
  match s with
  | EmptyString => [EmptyString]
  | String c s' =>
      if Ascii.eqb c sep then EmptyString :: split sep s'
      else match split sep s' with
           | [] => [String c EmptyString]
           | piece :: rest => String c piece :: rest
           end
  end.

(** [xs.join(sep)] on an array of strings. *)
Definition join (sep : string) (xs : list string) : string := String.concat sep xs.

(** Does [s] hold the character [c]? *)
Fixpoint occurs (c : ascii) (s : string) : bool :=
  match s with
  | EmptyString => false
  | String a s' => Ascii.eqb a c || occurs c s'
  end.

(** [Number.isSafeInteger(z)] for an integer [z]. *)
Definition isSafeInteger (z : Z) : bool := Z.abs z <? 2 ^ 53.

(** The numbers of the embedding: NaN, the two infinities, and the safe
    integers.  Every safe integer is a number value of its own, and the
    shortest numeral that reads back as it is its decimal numeral. *)
Inductive Number : Type :=
| NaN
| Infinity (negative : bool)
| Integer (z : Z) (safe : isSafeInteger z = true).

(** An integer literal, such as [1000]. *)
Abbreviation integer z := (Integer z eq_refl).

(** [Number.prototype.toString()], and the conversion of a number in a
    template literal. *)
Definition Number_toString (n : Number) : string :=
  match n with
  | NaN => "NaN"
  | Infinity negative => if negative then "-Infinity" else "Infinity"
  | Integer z _ => NilZero.string_of_int (Z.to_int z)
  end.

(** [!n] *)
Definition Number_falsy (n : Number) : bool :=
  match n with
  | NaN => true
  | Infinity _ => false
  | Integer z _ => z =? 0
  end.

(** [a === b] on numbers: NaN equals nothing. *)
Definition Number_equals (a b : Number) : bool :=
  match a, b with
  | Integer x _, Integer y _ => x =? y
  | Infinity s, Infinity t => Bool.eqb s t
  | _, _ => false
  end.

(** Values of type [Jsonifiable] ([src/types.ts]): what an options bag holds
    and what [JSON.parse] returns. *)
#[warnings="-register-all"]
Inductive Jsonifiable : Type :=
| JUndefined
| JNull
| JBoolean (b : bool)
| JNumber (n : Number)
| JString (s : string)
| JArray (items : list Jsonifiable)
| JObject (props : list (string * Jsonifiable)).

(** An object as its own enumerable properties in key order. *)
Definition Object : Type := list (string * Jsonifiable).

(** Values of type [unknown] that the code meets: JSON-like values and the
    [Error] objects that are thrown ([name] is the constructor's name). *)
Inductive unknown : Type :=
| Value (v : Jsonifiable)
| ErrorObject (name message : string).

(** [new Error(message)] *)
Definition Error (message : string) : unknown := ErrorObject "Error" message.

(** The [TypeError] raised by reading [property] of [undefined] or of [null]
    ([what] says which); the text is the engine's. *)
Definition TypeError (what property : string) : unknown :=
  ErrorObject "TypeError"
    ("Cannot read properties of " +++ what +++ " (reading '" +++ property +++ "')").

(** The [TypeError] raised by calling [callee], the text of an expression
    whose value is not a function. *)
Definition NotAFunction (callee : string) : unknown :=
  ErrorObject "TypeError" (callee +++ " is not a function").

(** The [TypeError] raised by converting to a string an object that has
    neither a callable [toString] nor a [valueOf] that gives a primitive. *)
Definition NotPrimitive : unknown :=
  ErrorObject "TypeError" "Cannot convert object to primitive value".

(** The outcome of evaluating code that may [throw]. *)
Inductive Completion (A : Type) : Type :=
| Normal (a : A)
| Throw (e : unknown).
Arguments Normal {A} a.
Arguments Throw {A} e.

Definition bind {A B} (c : Completion A) (k : A -> Completion B) : Completion B :=
  match c with
  | Normal a => k a
  | Throw e => Throw e
  end.

(** [try { body } catch (e) { handler(e) }] *)
Definition try_catch {A} (body : Completion A) (handler : unknown -> Completion A)
  : Completion A :=
  match body with
  | Normal a => Normal a
  | Throw e => handler e
  end.

(** [typeof v] *)
Definition typeof (v : unknown) : string :=
  match v with
  | Value JUndefined => "undefined"
  | Value JNull => "object"
  | Value (JBoolean _) => "boolean"
  | Value (JNumber _) => "number"
  | Value (JString _) => "string"
  | Value (JArray _) => "object"
  | Value (JObject _) => "object"
  | ErrorObject _ _ => "object"
  end.

(** Truthiness. *)
Definition ToBoolean (v : Jsonifiable) : bool :=
  match v with
  | JUndefined | JNull => false
  | JBoolean b => b
  | JNumber n => negb (Number_falsy n)
  | JString s => negb (String.eqb s "")
  | JArray _ | JObject _ => true
  end.

(** [a && b] *)
Definition js_and (a b : Jsonifiable) : Jsonifiable := if ToBoolean a then b else a.

(** [o] has the own property [key]; this is [key in o] when the object
    inherits no property of that name. *)
Definition has_key (o : Object) (key : string) : bool :=
  existsb (fun p => String.eqb (fst p) key) o.

(** [f] on each item in turn; the first throw ends the walk. *)
Definition each {A B} (f : A -> Completion B) : list A -> Completion (list B) :=
  fix each (xs : list A) : Completion (list B) :=
    match xs with
    | [] => Normal []
    | x :: xs' =>
        bind (f x) (fun y => bind (each xs') (fun ys => Normal (y :: ys)))
    end.

(** String conversion, as a template literal and [Array.prototype.join]
    perform it.  An object is a plain object and an array a plain array.
    The object is converted by the [toString] it inherits, unless it has an
    own property of that name: the value of that property is no function,
    neither is an own [valueOf], and the inherited [valueOf] returns the
    object, so that the conversion throws.  The array is converted by the
    [toString] it inherits, the join of its items by a comma, where
    [undefined] and [null] count as the empty string. *)
Fixpoint ToString (v : Jsonifiable) : Completion string :=
  match v with
  | JUndefined => Normal "undefined"
  | JNull => Normal "null"
  | JBoolean b => Normal (if b then "true" else "false")
  | JNumber n => Normal (Number_toString n)
  | JString s => Normal s
  | JArray items =>
      bind (each (fun x => match x with
                           | JUndefined | JNull => Normal ""
                           | _ => ToString x
                           end) items)
           (fun texts => Normal (join "," texts))
  | JObject props =>
      if has_key props "toString" then Throw NotPrimitive
      else Normal "[object Object]"
  end.

(** The conversion of an item of an array, as [join] performs it. *)
Definition itemText (x : Jsonifiable) : Completion string :=
  match x with
  | JUndefined | JNull => Normal ""
  | _ => ToString x
  end.

(** The method call [receiver.toString()], where [receiver] is the text of
    the expression whose value is [v].  Reading the method of [undefined] or
    [null] throws; an own property [toString] of an object hides the
    inherited method and is no function; every other value has the method
    of its prototype. *)
Definition toString (receiver : string) (v : Jsonifiable) : Completion string :=
  match v with
  | JUndefined => Throw (TypeError "undefined" "toString")
  | JNull => Throw (TypeError "null" "toString")
  | JObject props =>
      if has_key props "toString"
      then Throw (NotAFunction (receiver +++ ".toString"))
      else Normal "[object Object]"
  | _ => ToString v
  end.

(** [a === b].  Arrays and objects compare by reference; two of them written
    at different places are never the same reference. *)
Definition strict_equals (a b : Jsonifiable) : bool :=
  match a, b with
  | JUndefined, JUndefined => true
  | JNull, JNull => true
  | JBoolean x, JBoolean y => Bool.eqb x y
  | JNumber x, JNumber y => Number_equals x y
  | JString x, JString y => String.eqb x y
  | _, _ => false
  end.

(** [o[key]] *)
Fixpoint Get (o : Object) (key : string) : Jsonifiable :=
  match o with
  | [] => JUndefined
  | (k, v) :: o' => if String.eqb k key then v else Get o' key
  end.

(** [Object.keys(o)] *)
Definition Object_keys (o : Object) : list string := map fst o.

(** [xs.includes(x)] on an array of strings. *)
Definition includes (xs : list string) (x : Jsonifiable) : bool :=
  match x with
  | JString s => existsb (String.eqb s) xs
  | _ => false
  end.

End JS.

Export JS.

Declare Scope completion_scope.
Delimit Scope completion_scope with completion.
Notation "x <- c ;; k" := (bind c (fun x => k))
  (at level 61, c at next level, right associativity) : completion_scope.
Notation "c ;;; k" := (bind c (fun _ => k))
  (at level 61, right associativity) : completion_scope.
Local Open Scope completion_scope.

(* ================================================================= *)
(** ** [src/consts.ts] *)

Module Consts.

Definition DefaultSseRetryDurationMs : Number := integer 1000.
Definition DefaultElementsUseViewTransitions : bool := false.
Definition DefaultPatchSignalsOnlyIfMissing : bool := false.

Definition DatastarDatalineSelector : string := "selector".
Definition DatastarDatalinePatchMode : string := "mode".
Definition DatastarDatalineElements : string := "elements".
Definition DatastarDatalineUseViewTransition : string := "useViewTransition".
Definition DatastarDatalineSignals : string := "signals".
Definition DatastarDatalineOnlyIfMissing : string := "onlyIfMissing".

Definition ElementPatchModes : list string :=
  ["outer"; "inner"; "replace"; "prepend"; "append"; "before"; "after"; "remove"].

Definition DefaultElementPatchMode : string := "outer".

(** [EventTypes], as the type [EventType] derived from it. *)
Inductive EventType : Type :=
| datastar_patch_elements
| datastar_patch_signals.

Definition EventType_name (event : EventType) : string :=
  match event with
  | datastar_patch_elements => "datastar-patch-elements"
  | datastar_patch_signals => "datastar-patch-signals"
  end.

End Consts.

Export Consts.

(* ================================================================= *)
(** ** [src/types.ts] *)

Module Types.

(** Modelled from the spec: [DefaultMapping] of [src/types.ts], which is not
    among the sources.  The spec describes it as the fixed mapping from
    option key to its default value; the defaults are those of
    [src/consts.ts]. *)
Definition DefaultMapping : Object :=
  [ (DatastarDatalinePatchMode, JString DefaultElementPatchMode);
    (DatastarDatalineUseViewTransition, JBoolean DefaultElementsUseViewTransitions);
    (DatastarDatalineOnlyIfMissing, JBoolean DefaultPatchSignalsOnlyIfMissing) ].

(** [DatastarEventOptions] *)
Record DatastarEventOptions : Type := {
  eventId : option string;
  retryDuration : option Number
}.

(** An options bag ([PatchElementsOptions], [PatchSignalsOptions]): the two
    event fields, and every other own property in key order. *)
Record Options : Type := {
  event : DatastarEventOptions;
  rest : Object
}.

Definition noEventOptions : DatastarEventOptions :=
  {| eventId := None; retryDuration := None |}.

(** The empty object [{}] as an options bag. *)
Definition noOptions : Options := {| event := noEventOptions; rest := [] |}.

(** [options || {}] *)
Definition orEmpty (options : option Options) : Options :=
  match options with
  | Some o => o
  | None => noOptions
  end.

End Types.

Export Types.

(* ================================================================= *)
(** ** [src/abstractServerSentEventGenerator.ts] *)

Module ServerSentEventGenerator.

(** [!value] for a [string | undefined]. *)
Definition absentOrEmpty (value : option string) : bool :=
  match value with
  | None => true
  | Some s => String.eqb s ""
  end.

(** [value.trim()] for a [string | undefined]. *)
Definition trimOf (value : option string) : Completion string :=
  match value with
  | None => Throw (TypeError "undefined" "trim")
  | Some s => Normal (trim s)
  end.

(** [!value || value.trim() === ''] *)
Definition missing (value : option string) : bool :=
  match value with
  | None => true
  | Some s => String.eqb s "" || String.eqb (trim s) ""
  end.

Definition InvalidModeMessage (mode : string) : string :=
  "Invalid ElementPatchMode: " +++ DQ +++ mode +++ DQ +++
  ". Valid modes are: " +++ join ", " ElementPatchModes.

Definition validateElementPatchMode (mode : Jsonifiable) : Completion unit :=
  if negb (includes ElementPatchModes mode)
  then text <- ToString mode ;; Throw (Error (InvalidModeMessage text))
  else Normal tt.

Definition validateRequired (value : option string) (paramName : string)
  : Completion unit :=
  if missing value
  then Throw (Error (paramName +++ " is required and cannot be empty"))
  else Normal tt.

(** [!n], [n === k] and [n ?? d] for a [number | undefined]. *)
Definition falsyNumber (n : option Number) : bool :=
  match n with
  | None => true
  | Some x => Number_falsy x
  end.

Definition isNumber (n : option Number) (k : Number) : bool :=
  match n with
  | None => false
  | Some x => Number_equals x k
  end.

Definition orElse (n : option Number) (d : Number) : Number :=
  match n with
  | Some x => x
  | None => d
  end.

Definition send (event : EventType) (dataLines : list string)
    (options : DatastarEventOptions) : list string :=
  let typeLine := ["event: " +++ EventType_name event +++ LF] in
  let idLine :=
    match eventId options with
    | Some id => if String.eqb id "" then [] else ["id: " +++ id +++ LF]
    | None => []
    end in
  let retryLine :=
    if falsyNumber (retryDuration options)
       || isNumber (retryDuration options) (integer 1000)
    then []
    else ["retry: "
            +++ Number_toString (orElse (retryDuration options) DefaultSseRetryDurationMs)
            +++ LF] in
  typeLine ++ idLine ++ retryLine
    ++ map (fun data => "data: " +++ data +++ LF) dataLines
    ++ [LF].

Definition eachNewlineIsADataLine (prefix data : string) : list string :=
  map (fun line => prefix +++ " " +++ line) (split LF_char data).

(** [key in DefaultMapping] also holds for the names every object inherits;
    for those the comparison is with an inherited function or object, which
    no [Jsonifiable] equals, so the answer is [false] as well. *)
Definition hasDefaultValue (key : string) (val : Jsonifiable) : bool :=
  if has_key DefaultMapping key
  then strict_equals val (Get DefaultMapping key)
  else false.

(** [keys.flatMap(f)] where [f] may throw: the first throw ends the walk. *)
Fixpoint flatMap (f : string -> Completion (list string)) (keys : list string)
  : Completion (list string) :=
  match keys with
  | [] => Normal []
  | key :: keys' =>
      lines <- f key ;;
      more <- flatMap f keys' ;;
      Normal (lines ++ more)
  end.

Definition eachOptionIsADataLine (options : Object) : Completion (list string) :=
  flatMap
    (fun key =>
       text <- toString "options[key]" (Get options key) ;;
       Normal (eachNewlineIsADataLine key text))
    (filter (fun key => negb (hasDefaultValue key (Get options key)))
            (Object_keys options)).

(** [patchMode === 'remove' && selector] *)
Definition isRemoveWithSelector (renderOptions : Object) : Jsonifiable :=
  let patchMode := Get renderOptions DatastarDatalinePatchMode in
  let selector := Get renderOptions DatastarDatalineSelector in
  js_and (JBoolean (strict_equals patchMode (JString "remove"))) selector.

Definition patchElements (elements : option string) (options : option Options)
  : Completion (list string) :=
  let o := orEmpty options in
  let renderOptions := rest o in
  let patchMode := Get renderOptions DatastarDatalinePatchMode in
  (if ToBoolean patchMode then validateElementPatchMode patchMode else Normal tt) ;;;
  let selector := Get renderOptions DatastarDatalineSelector in
  let removeWithSelector := isRemoveWithSelector renderOptions in
  (if negb (ToBoolean removeWithSelector)
   then validateRequired elements "elements" else Normal tt) ;;;
  (if negb (ToBoolean selector) && strict_equals patchMode (JString "remove")
   then if missing elements
        then Throw (Error
               "For remove mode without selector, elements parameter with IDs is required")
        else Normal tt
   else Normal tt) ;;;
  optionLines <- eachOptionIsADataLine renderOptions ;;
  withElements <-
    (if negb (ToBoolean removeWithSelector) then Normal true
     else trimmed <- trimOf elements ;; Normal (negb (String.eqb trimmed ""))) ;;
  dataLines <-
    (if withElements : bool
     then match elements with
          | Some html =>
              Normal (optionLines ++ eachNewlineIsADataLine DatastarDatalineElements html)
          | None => Throw (TypeError "undefined" "split")
          end
     else Normal optionLines) ;;
  Normal (send datastar_patch_elements dataLines (event o)).

Definition patchSignals (signals : option string) (options : option Options)
  : Completion (list string) :=
  validateRequired signals "signals" ;;;
  let o := orEmpty options in
  let eventOptions := rest o in
  optionLines <- eachOptionIsADataLine eventOptions ;;
  dataLines <-
    match signals with
    | Some json =>
        Normal (optionLines ++ eachNewlineIsADataLine DatastarDatalineSignals json)
    | None => Throw (TypeError "undefined" "split")
    end ;;
  Normal (send datastar_patch_signals dataLines (event o)).

(** [options?.eventId] and [options?.retryDuration] *)
Definition optionalEvent (options : option DatastarEventOptions)
  : DatastarEventOptions :=
  match options with
  | Some o => {| eventId := eventId o; retryDuration := retryDuration o |}
  | None => noEventOptions
  end.

(** A [string | undefined] as a property value. *)
Definition ofOptionalString (value : option string) : Jsonifiable :=
  match value with
  | Some s => JString s
  | None => JUndefined
  end.

Definition removeElements (selector elements : option string)
    (options : option DatastarEventOptions) : Completion (list string) :=
  if absentOrEmpty selector && missing elements
  then Throw (Error
         "Either selector or elements (with IDs) must be provided to remove elements.")
  else
    patchElements
      (Some match elements with Some html => html | None => "" end)
      (Some {| event := optionalEvent options;
               rest := [ (DatastarDatalineSelector, ofOptionalString selector);
                         (DatastarDatalinePatchMode, JString "remove") ] |}).

End ServerSentEventGenerator.

Export ServerSentEventGenerator.

(* ================================================================= *)
(** ** [removeSignals]: the patch object and its serialization *)

Module Patch.

(** The value of a decimal digit. *)
Definition digit (c : ascii) : option Z :=
  let n := nat_of_ascii c in
  if (Nat.leb 48 n && Nat.leb n 57)%bool then Some (Z.of_nat n - 48) else None.

Fixpoint digits (acc : Z) (s : string) : option Z :=
  match s with
  | EmptyString => Some acc
  | String c s' =>
      match digit c with
      | Some d => digits (10 * acc + d) s'
      | None => None
      end
  end.

(** The array index that a property key denotes, if any: a canonical decimal
    numeral below [2^32 - 1]. *)
Definition arrayIndex (key : string) : option Z :=
  match key with
  | EmptyString => None
  | String c rest =>
      if (Ascii.eqb c "0" && negb (String.eqb rest ""))%bool then None
      else match digits 0 key with
           | Some n => if n <? 4294967295 then Some n else None
           | None => None
           end
  end.

(** A new own property takes its place in key order: array indices first, in
    ascending order, then the other keys in order of creation. *)
Fixpoint insertIndex (i : Z) (key : string) (v : Jsonifiable) (own : Object) : Object :=
  match own with
  | [] => [(key, v)]
  | (k, w) :: own' =>
      match arrayIndex k with
      | Some j => if j <? i then (k, w) :: insertIndex i key v own'
                  else (key, v) :: own
      | None => (key, v) :: own
      end
  end.

Definition insertOwn (key : string) (v : Jsonifiable) (own : Object) : Object :=
  match arrayIndex key with
  | Some i => insertIndex i key v own
  | None => own ++ [(key, v)]
  end.

Fixpoint updateOwn (key : string) (v : Jsonifiable) (own : Object) : Object :=
  match own with
  | [] => []
  | (k, w) :: own' =>
      if String.eqb k key then (k, v) :: own' else (k, w) :: updateOwn key v own'
  end.

(** [CreateDataProperty]: give the object the own property [key], whatever
    its prototype. *)
Definition defineOwn (key : string) (v : Jsonifiable) (own : Object) : Object :=
  if has_key own key then updateOwn key v own else insertOwn key v own.

(** An object created by [{}]: its own properties, and whether its prototype
    is still [Object.prototype]. *)
Record PlainObject : Type := {
  inheritsObjectPrototype : bool;
  own : Object
}.

(** [{}] *)
Definition emptyObject : PlainObject :=
  {| inheritsObjectPrototype := true; own := [] |}.

(** The assignment [o[key] = null].  An own property is overwritten; failing
    that, the key ["__proto__"] reaches the accessor that [Object.prototype]
    has by the language standard (in Node.js and Bun), whose setter makes
    the prototype [null] and creates no property; any other key becomes a
    new own property. *)
Definition assignNull (o : PlainObject) (key : string) : PlainObject :=
  if has_key (own o) key then
    {| inheritsObjectPrototype := inheritsObjectPrototype o;
       own := updateOwn key JNull (own o) |}
  else if (String.eqb key "__proto__" && inheritsObjectPrototype o)%bool then
    {| inheritsObjectPrototype := false; own := own o |}
  else
    {| inheritsObjectPrototype := inheritsObjectPrototype o;
       own := insertOwn key JNull (own o) |}.

Definition hexDigit (n : nat) : ascii :=
  ascii_of_nat (if Nat.ltb n 10 then 48 + n else 87 + n).

(** One character inside a JSON string literal ([QuoteJSONString]). *)
Definition quoteChar (c : ascii) : string :=
  let n := nat_of_ascii c in
  if Nat.eqb n 8 then "\b"
  else if Nat.eqb n 9 then "\t"
  else if Nat.eqb n 10 then "\n"
  else if Nat.eqb n 12 then "\f"
  else if Nat.eqb n 13 then "\r"
  else if Nat.eqb n 34 then "\" +++ DQ
  else if Nat.eqb n 92 then "\\"
  else if Nat.ltb n 32 then
    "\u00" +++ String (hexDigit (Nat.div n 16)) (String (hexDigit (Nat.modulo n 16)) "")
  else String c "".

Fixpoint quoteChars (s : string) : string :=
  match s with
  | EmptyString => EmptyString
  | String c s' => quoteChar c +++ quoteChars s'
  end.

Definition QuoteJSONString (s : string) : string := DQ +++ quoteChars s +++ DQ.

(** [JSON.stringify(v)] without indentation; [None] is [undefined].  A
    number that is not finite is written as [null]. *)
Fixpoint JSON_stringify (v : Jsonifiable) : option string :=
  match v with
  | JUndefined => None
  | JNull => Some "null"
  | JBoolean b => Some (if b then "true" else "false")
  | JNumber n =>
      Some match n with
           | Integer _ _ => Number_toString n
           | NaN | Infinity _ => "null"
           end
  | JString s => Some (QuoteJSONString s)
  | JArray items =>
      Some ("[" +++ join "," (map (fun x => match JSON_stringify x with
                                           | Some text => text
                                           | None => "null"
                                           end) items) +++ "]")
  | JObject props =>
      Some ("{" +++ join "," (flat_map (fun p => match JSON_stringify (snd p) with
                                                | Some text =>
                                                    [QuoteJSONString (fst p) +++ ":" +++ text]
                                                | None => []
                                                end) props) +++ "}")
  end.

End Patch.

Export Patch.

Module RemoveSignals.

(** [string | string[]] *)
Inductive SignalKeys : Type :=
| OneKey (key : string)
| ManyKeys (keys : list string).

(** [Array.isArray(signalKeys) ? signalKeys : [signalKeys]] *)
Definition keysOf (signalKeys : SignalKeys) : list string :=
  match signalKeys with
  | OneKey key => [key]
  | ManyKeys keys => keys
  end.

(** The loop [for (const key of keys) patch[key] = null], from [patch]. *)
Definition assignAll (patch : PlainObject) (keys : list string) : PlainObject :=
  fold_left assignNull keys patch.

Definition removeSignals (signalKeys : SignalKeys) (options : option Options)
  : Completion (list string) :=
  let keys := keysOf signalKeys in
  let patch := assignAll emptyObject keys in
  patchSignals (JSON_stringify (JObject (own patch))) options.

(** The object that maps each key of [keys] to [null], as the specification
    words the merge patch: every key is an own property. *)
Definition nullPatch (keys : list string) : Jsonifiable :=
  JObject (fold_left (fun props key => defineOwn key JNull props) keys []).

End RemoveSignals.

Export RemoveSignals.

(* ================================================================= *)
(** ** [src/node/serverSentEventGenerator.ts] *)

Module Node.

Definition isRecord (obj : unknown) : bool :=
  String.eqb (typeof obj) "object" &&
  negb match obj with Value JNull => true | _ => false end.

(** The request as [readSignals] uses it: its method, its target, and the
    chunks its [data] events deliver before [end]. *)
Record IncomingMessage : Type := {
  method : string;
  url : string;
  chunks : list string
}.

(** [{ success: true; signals } | { success: false; error }] *)
Inductive SignalsResult : Type :=
| Success (signals : Jsonifiable)
| Failure (error : string).

(** [e.message] when ["message" in e]. *)
Definition messageOf (e : unknown) : option Jsonifiable :=
  match e with
  | ErrorObject _ message => Some (JString message)
  | Value (JObject props) =>
      if has_key props "message" then Some (Get props "message") else None
  | Value _ => None
  end.

(** The body of both [catch (e: unknown)] clauses. *)
Definition onCatch (e : unknown) : Completion SignalsResult :=
  match (if isRecord e then messageOf e else None) with
  | Some (JString message) => Normal (Failure message)
  | _ => Normal (Failure "unknown error when parsing request")
  end.

(** [params.has(name)] and [params.get(name)!] *)
Definition has (params : list (string * string)) (name : string) : bool :=
  existsb (fun p => String.eqb (fst p) name) params.

Fixpoint get (params : list (string * string)) (name : string) : option string :=
  match params with
  | [] => None
  | (k, v) :: params' => if String.eqb k name then Some v else get params' name
  end.

(** The text [JSON.parse] reads from its argument: [null] reads as ["null"]. *)
Definition textOf (value : option string) : string :=
  match value with
  | Some text => text
  | None => "null"
  end.

Section Platform.

(** What the runtime provides: [process.env.HOST]; the constructor
    [new URL(href)], which throws a [TypeError] on an invalid URL and
    otherwise gives the decoded query pairs of [searchParams]; and
    [JSON.parse]. *)
Variable HOST : option string.
Variable URL_searchParams : string -> Completion (list (string * string)).
Variable JSON_parse : string -> Completion Jsonifiable.

Definition href (request : IncomingMessage) : string :=
  "http://" +++ match HOST with Some h => h | None => "localhost" end
            +++ url request.

(** The awaited body: [chunks += chunk] for each chunk, from [""]. *)
Definition bodyOf (request : IncomingMessage) : string :=
  fold_left String.append (chunks request) "".

(** The settled outcome of the promise that [readSignals] returns: [Normal]
    when it resolves, [Throw] when it rejects. *)
Definition readSignals (request : IncomingMessage) : Completion SignalsResult :=
  if String.eqb (method request) "GET" then
    params <- URL_searchParams (href request) ;;
    try_catch
      (if has params "datastar" then
         signals <- JSON_parse (textOf (get params "datastar")) ;;
         if isRecord (Value signals) then Normal (Success signals)
         else Throw (Error "Datastar param is not a record")
       else Throw (Error "No datastar object in request"))
      onCatch
  else
    let body := bodyOf request in
    try_catch
      ((if negb (String.eqb (typeof (Value (JString body))) "string")
        then Throw (Error "body was not a string") else Normal tt) ;;;
       parsedBody <- JSON_parse body ;;
       if isRecord (Value parsedBody) then Normal (Success parsedBody)
       else Throw (Error "Parsed JSON body is not of type record"))
      onCatch.

End Platform.

End Node.

Export Node.

(* ================================================================= *)
(** ** Vocabulary of the specification *)

Module Spec.

(** The specification's [RequiredParameterError]: one of the three errors the
    generator raises for a missing required parameter. *)
Definition RequiredParameterError (e : unknown) : Prop :=
  (exists paramName, e = Error (paramName +++ " is required and cannot be empty"))
  \/ e = Error "For remove mode without selector, elements parameter with IDs is required"
  \/ e = Error "Either selector or elements (with IDs) must be provided to remove elements.".

(** The specification's [InvalidModeError] for the offending value [mode]:
    the message names it and lists the eight valid modes. *)
Definition InvalidModeError (mode : string) (e : unknown) : Prop :=
  e = Error ("Invalid ElementPatchMode: " +++ DQ +++ mode +++ DQ
             +++ ". Valid modes are: outer, inner, replace, prepend, append, before, after, remove").

(** An options bag with the given event fields and own properties. *)
Definition bag (ev : DatastarEventOptions) (props : Object) : option Options :=
  Some {| event := ev; rest := props |}.

(** The options bag [{mode: m}]. *)
Definition modeOnly (m : string) : option Options :=
  bag noEventOptions [(DatastarDatalinePatchMode, JString m)].

(** The value has a text of its own, the call [v.toString()] returns:
    [undefined] and [null] have no such method; a boolean, a number and a
    string have one; an object has the inherited one unless an own property
    of it is named [toString]; an array joins its items, each of which has
    to convert in turn, [undefined] and [null] counting as empty. *)
Fixpoint hasText (v : Jsonifiable) : bool :=
  match v with
  | JUndefined | JNull => false
  | JBoolean _ | JNumber _ | JString _ => true
  | JArray items =>
      forallb (fun x => match x with
                        | JUndefined | JNull => true
                        | _ => hasText x
                        end) items
  | JObject props => negb (has_key props "toString")
  end.

(** The item of an array converts when the array is joined. *)
Definition itemHasText (x : Jsonifiable) : bool :=
  match x with
  | JUndefined | JNull => true
  | _ => hasText x
  end.

(** Every own property of the bag holds a value that has a text. *)
Definition allHaveText (props : Object) : Prop :=
  Forall (fun p => hasText (snd p) = true) props.

(** The errors of a string conversion that fails: of [receiver.toString()],
    and of a conversion inside it or inside a template literal. *)
Definition ConversionError (receiver : string) (e : unknown) : Prop :=
  (exists what, e = TypeError what "toString")
  \/ e = NotAFunction (receiver +++ ".toString")
  \/ e = NotPrimitive.

(** [s] begins with [p]. *)
Fixpoint startsWith (p s : string) : bool :=
  match p, s with
  | EmptyString, _ => true
  | String a p', String b s' => Ascii.eqb a b && startsWith p' s'
  | String _ _, EmptyString => false
  end.

(** The mode of the bag is "remove" and its selector is truthy: for a
    string, not empty. *)
Definition removesBySelector (props : Object) : Prop :=
  Get props DatastarDatalinePatchMode = JString "remove"
  /\ ToBoolean (Get props DatastarDatalineSelector) = true.

(** No key of the bag begins with the name of the elements field. *)
Definition noElementsOption (props : Object) : Prop :=
  forall key, In key (Object_keys props) -> startsWith DatastarDatalineElements key = false.

(** The mode of the bag, if given, is one of the eight patch modes. *)
Definition modeAccepted (props : Object) : Prop :=
  ToBoolean (Get props DatastarDatalinePatchMode) = true ->
  includes ElementPatchModes (Get props DatastarDatalinePatchMode) = true.

(** [line] is a data line of the field [field]. *)
Definition isDataLineOf (field line : string) : bool :=
  startsWith ("data: " +++ field +++ " ") line.

(** The last character of a string. *)
Fixpoint lastChar (s : string) : option ascii :=
  match s with
  | EmptyString => None
  | String c EmptyString => Some c
  | String _ s' => lastChar s'
  end.

(** A framed data line. *)
Definition dataLine (field text : string) : string :=
  "data: " +++ field +++ " " +++ text +++ LF.

(** The number of characters [c] in [s]. *)
Fixpoint count (c : ascii) (s : string) : nat :=
  match s with
  | EmptyString => O
  | String a s' => (if Ascii.eqb a c then 1 else 0) + count c s'
  end.

(** A stand-in for the runtime in worked examples: [new URL] on the hrefs of
    a request for [/merge?datastar=...] at the default host, of requests
    whose href has no valid host ([HOST] being [::]) or no valid port (the
    target being [*:x]), and of other requests; and the result of
    [JSON.parse] on the few texts the examples use. *)
Definition sampleURL (text : string) (href : string)
  : Completion (list (string * string)) :=
  if startsWith "http://localhost/merge?datastar=" href
  then Normal [("datastar", text)]
  else if startsWith "http://::" href || String.eqb href "http://localhost*:x"
  then Throw (ErrorObject "TypeError" "Invalid URL")
  else Normal [].

Definition SyntaxError (text : string) : unknown :=
  ErrorObject "SyntaxError" ("Unexpected token in JSON: " +++ text).

Definition sampleParse (text : string) : Completion Jsonifiable :=
  if String.eqb text "[1,2]"
  then Normal (JArray [JNumber (integer 1); JNumber (integer 2)])
  else if String.eqb text "{}" then Normal (JObject [])
  else if String.eqb text "42" then Normal (JNumber (integer 42))
  else if String.eqb text "null" then Normal JNull
  else Throw (SyntaxError text).

(** The text a request submits as its signals: the [datastar] query
    parameter of a GET request, if its URL has one, and the body of any
    other request. *)
Definition signalsText (HOST : option string)
    (URL_searchParams : string -> Completion (list (string * string)))
    (request : IncomingMessage) : Completion (option string) :=
  if String.eqb (method request) "GET"
  then params <- URL_searchParams (href HOST request) ;;
       Normal (get params "datastar")
  else Normal (Some (bodyOf request)).

(** The message of the failure for a value that is not a record. *)
Definition notRecordMessage (request : IncomingMessage) : string :=
  if String.eqb (method request) "GET"
  then "Datastar param is not a record"
  else "Parsed JSON body is not of type record".

(** A JSON scalar: neither an array nor an object. *)
Definition scalar (v : Jsonifiable) : bool :=
  match v with
  | JArray _ | JObject _ => false
  | _ => true
  end.

Definition getRequest (target : string) : IncomingMessage :=
  {| method := "GET"; url := target; chunks := [] |}.

Definition postRequest (body : list string) : IncomingMessage :=
  {| method := "POST"; url := "/merge"; chunks := body |}.

End Spec.

Export Spec.

(* ================================================================= *)
(** ** [executeScript] *)

Module Script.

(** [string[] | Record<string, string>] *)
Inductive Attributes : Type :=
| AttributeRecord (entries : list (string * string))
| AttributeArray (items : list string).

(** The options of [executeScript]. *)
Record ScriptOptions : Type := {
  autoRemove : option bool;
  attributes : option Attributes;
  scriptEvent : DatastarEventOptions
}.

(** [{}] as the options of [executeScript]. *)
Definition noScriptOptions : ScriptOptions :=
  {| autoRemove := None; attributes := None; scriptEvent := noEventOptions |}.

(** The attribute text of the tag: the destructuring defaults
    [autoRemove = true] and [attributes = {}], the two shapes of
    [attributes], and the self-removal attribute. *)
Definition attrString (o : ScriptOptions) : string :=
  let autoRemove := match autoRemove o with Some b => b | None => true end in
  let attributes :=
    match attributes o with Some a => a | None => AttributeRecord [] end in
  let attrString :=
    match attributes with
    | AttributeRecord entries =>
        join "" (map (fun kv => " " +++ fst kv +++ "=" +++ DQ +++ snd kv +++ DQ) entries)
    | AttributeArray items =>
        if Nat.ltb 0 (length items) then " " +++ join " " items else ""
    end in
  if autoRemove then attrString +++ " data-effect=" +++ DQ +++ "el.remove()" +++ DQ
  else attrString.

Definition scriptTag (script : string) (o : ScriptOptions) : string :=
  "<script" +++ attrString o +++ ">" +++ script +++ "</script>".

Definition executeScript (script : string) (options : option ScriptOptions)
  : list string :=
  let o := match options with Some o => o | None => noScriptOptions end in
  let dataLines :=
    eachNewlineIsADataLine "mode" "append"
    ++ eachNewlineIsADataLine "selector" "body"
    ++ eachNewlineIsADataLine "elements" (scriptTag script o) in
  send datastar_patch_elements dataLines (scriptEvent o).

End Script.

Export Script.

(* ================================================================= *)
(** ** [src/node/serverSentEventGenerator.ts]: the stream *)

Module NodeStream.

(** The calls the adapter makes on the response and on the request, in the
    order it makes them. *)
Inductive Call : Type :=
| ResWriteHead (status : Z) (headers : Object)
| ResFlushHeaders
| ReqOnClose
| ResWrite (chunk : string)
| ResEnd.

(** Code that makes such calls and may throw: from the calls made so far to
    its outcome and the calls made by then.  An awaited promise is its
    settled outcome. *)
Definition Effect (A : Type) : Type := list Call -> Completion A * list Call.

Definition ret {A} (a : A) : Effect A := fun log => (Normal a, log).

Definition throw {A} (e : unknown) : Effect A := fun log => (Throw e, log).

Definition andThen {A B} (c : Effect A) (k : A -> Effect B) : Effect B :=
  fun log =>
    match c log with
    | (Normal a, log') => k a log'
    | (Throw e, log') => (Throw e, log')
    end.

(** [try { body } catch (error) { handler(error) }] *)
Definition tryCatch {A} (body : Effect A) (handler : unknown -> Effect A) : Effect A :=
  fun log =>
    match body log with
    | (Normal a, log') => (Normal a, log')
    | (Throw e, log') => handler e log'
    end.

Definition perform (c : Call) : Effect unit := fun log => (Normal tt, log ++ [c]).

Definition lift {A} (c : Completion A) : Effect A := fun log => (c, log).

(** The overriding [send]: the lines of the inherited [send], written as one
    chunk, and returned. *)
Definition nodeSend (event : EventType) (dataLines : list string)
    (options : DatastarEventOptions) : Effect (list string) :=
  let eventLines := send event dataLines options in
  let eventText := join "" eventLines in
  andThen (perform (ResWrite eventText)) (fun _ => ret eventLines).

(** A method of the generator on the Node adapter.  Each inherited method
    ends in [return this.send(...)], its only call of [send]: what it returns
    is what the overriding [send] is given to write. *)
Definition onNode (inherited : Completion (list string)) : Effect (list string) :=
  andThen (lift inherited)
    (fun eventLines =>
       andThen (perform (ResWrite (join "" eventLines))) (fun _ => ret eventLines)).

Definition nodePatchElements (elements : option string) (options : option Options)
  : Effect (list string) := onNode (patchElements elements options).

Definition nodePatchSignals (signals : option string) (options : option Options)
  : Effect (list string) := onNode (patchSignals signals options).

Definition nodeRemoveElements (selector elements : option string)
    (options : option DatastarEventOptions) : Effect (list string) :=
  onNode (removeElements selector elements options).

Definition nodeRemoveSignals (signalKeys : SignalKeys) (options : option Options)
  : Effect (list string) := onNode (removeSignals signalKeys options).

Definition nodeExecuteScript (script : string) (options : option ScriptOptions)
  : Effect (list string) := onNode (Normal (executeScript script options)).

(** [close()] *)
Definition close : Effect unit := perform ResEnd.

(** [StreamOptions], as [stream] reads it. *)
Record StreamOptions : Type := {
  onError : option (unknown -> Effect unit);
  onAbort : option (Effect unit);
  keepalive : option bool
}.

(** [options?.onAbort ? options.onAbort() : null], awaited. *)
Definition callOnAbort (options : option StreamOptions) : Effect unit :=
  match options with
  | Some o => match onAbort o with Some f => f | None => ret tt end
  | None => ret tt
  end.

(** [options?.keepalive], for its truthiness. *)
Definition keptAlive (options : option StreamOptions) : bool :=
  match options with
  | Some o => match keepalive o with Some b => b | None => false end
  | None => false
  end.

Section Stream.

(** [sseHeaders] of [src/types.ts], which is not among the sources. *)
Variable sseHeaders : Object.

(** The constructor. *)
Definition construct : Effect unit :=
  andThen (perform (ResWriteHead 200 sseHeaders)) (fun _ => perform ResFlushHeaders).

(** The listener that [stream] registers for the request's [close]. *)
Definition closeListener (options : option StreamOptions) : Effect unit :=
  andThen (callOnAbort options) (fun _ => perform ResEnd).

(** [stream(req, res, onStart, options)]; [onStart] is the callback applied
    to the generator. *)
Definition stream (onStart : Effect unit) (options : option StreamOptions)
  : Effect unit :=
  andThen construct (fun _ =>
  andThen (perform ReqOnClose) (fun _ =>
  tryCatch
    (andThen onStart (fun _ =>
       if negb (keptAlive options) then perform ResEnd else ret tt))
    (fun error =>
       andThen (callOnAbort options) (fun _ =>
         match (match options with Some o => onError o | None => None end) with
         | Some handler =>
             andThen (handler error) (fun _ => perform ResEnd)
         | None =>
             andThen (perform ResEnd) (fun _ => throw error)
         end)))).

End Stream.

End NodeStream.

Export NodeStream.

(* ================================================================= *)
(** ** Further vocabulary *)

Module Frames.

(** A line of an event is well framed: it ends with its only line feed. *)
Definition wellFramed (line : string) : Prop :=
  exists content, line = content +++ LF /\ occurs LF_char content = false.

(** The options that are emitted: those that do not hold their default. *)
Definition emitted (props : Object) : Object :=
  filter (fun p => negb (hasDefaultValue (fst p) (snd p))) props.

(** Every value of the object is [null]. *)
Definition allNull (props : Object) : Prop :=
  Forall (fun p => snd p = JNull) props.

(** The text of a request body that arrives in the given chunks. *)
Definition chunked (chunks : list string) : string := String.concat "" chunks.

(** [text] ends with [suffix]. *)
Definition endsWith (suffix text : string) : Prop :=
  exists before, text = before +++ suffix.

(** The calls that open a stream. *)
Definition opening (sseHeaders : Object) : list Call :=
  [ResWriteHead 200 sseHeaders; ResFlushHeaders; ReqOnClose].

(** A callback that patches an element and then fails, for worked examples. *)
Definition failingHandler : Effect unit :=
  andThen (nodePatchElements (Some "<p id=a></p>") None)
          (fun _ => throw (Error "handler failed")).

(** Stream options with an error callback that writes nothing. *)
Definition quietOptions : option StreamOptions :=
  Some {| onError := Some (fun _ => ret tt); onAbort := None; keepalive := None |}.

(** From [before] to [after] one chunk was written: the text of [lines],
    a whole event. *)
Definition wroteOneEvent (lines : list string) (before after : list Call) : Prop :=
  exists chunk,
    after = before ++ [ResWrite chunk]
    /\ chunk = join "" lines
    /\ endsWith (LF +++ LF) chunk.

(** A method of the Node generator writes all of its event or nothing: when
    it returns lines it has written them as one chunk, and when it throws it
    has made no call. *)
Definition allOrNothing (method : Effect (list string)) : Prop :=
  forall log,
    match method log with
    | (Normal lines, log') => wroteOneEvent lines log log'
    | (Throw _, log') => log' = log
    end.

(** A PUT request for worked examples, by its chunks. *)
Definition putRequest (body : list string) : IncomingMessage :=
  {| method := "PUT"; url := "/merge"; chunks := body |}.

End Frames.

Export Frames.

(* ================================================================= *)
(** * Properties *)

(** A property of a list of one line, by evaluation. *)
Ltac one_line := constructor; [reflexivity | constructor].

(** ** Strings *)

Section Strings.

Lemma eqb_empty_iff (s : string) : String.eqb s "" = true <-> s = "".
Proof. apply String.eqb_eq. Qed.

Lemma trimStart_blank (s : string) : blank (trimStart s) = blank s.
Proof.
  induction s as [|c s IH]; simpl; auto.
  destruct (isWhiteSpace c) eqn:W; simpl; [exact IH | now rewrite W].
Qed.

Lemma trimStart_empty (s : string) : trimStart s = "" <-> blank s = true.
Proof.
  induction s as [|c s IH]; simpl.
  - tauto.
  - destruct (isWhiteSpace c); simpl; [exact IH | split; discriminate].
Qed.

Lemma trimEnd_empty (s : string) : trimEnd s = "" <-> blank s = true.
Proof.
  induction s as [|c s IH]; simpl.
  - tauto.
  - destruct (trimEnd s) as [|r rs] eqn:T.
    + destruct (isWhiteSpace c); simpl.
      * split; intros _; [now apply IH | reflexivity].
      * split; discriminate.
    + split; [discriminate|].
      intros H. apply andb_true_iff in H as [_ H].
      apply IH in H. discriminate.
Qed.

(** [s.trim() === ''] exactly when [s] consists of white space. *)
Lemma trim_empty (s : string) : trim s = "" <-> blank s = true.
Proof.
  unfold trim. rewrite trimEnd_empty, trimStart_blank. tauto.
Qed.

Lemma trim_eqb (s : string) : String.eqb (trim s) "" = blank s.
Proof.
  destruct (blank s) eqn:B.
  - apply String.eqb_eq, trim_empty, B.
  - apply String.eqb_neq. intros H. apply trim_empty in H. congruence.
Qed.

(** [!s || s.trim() === ''] exactly when [s] consists of white space. *)
Lemma missing_blank (s : string) : missing (Some s) = blank s.
Proof.
  unfold missing. rewrite trim_eqb.
  destruct s; simpl; [reflexivity|].
  reflexivity.
Qed.

Lemma blank_nonempty (s : string) : blank s = false -> s <> "".
Proof. intros H ->. discriminate. Qed.

Lemma split_not_nil (sep : ascii) (s : string) : split sep s <> [].
Proof.
  destruct s as [|c s]; simpl; [discriminate|].
  destruct (Ascii.eqb c sep); [discriminate|].
  destruct (split sep s); discriminate.
Qed.

(** Joining the pieces with the separator gives the string back. *)
Lemma join_split (sep : ascii) (s : string) :
  join (String sep "") (split sep s) = s.
Proof.
  induction s as [|c s IH]; simpl; [reflexivity|].
  destruct (Ascii.eqb_spec c sep) as [->|N].
  - unfold join in *. simpl.
    destruct (split sep s) eqn:E; [now apply split_not_nil in E|].
    simpl. f_equal. exact IH.
  - unfold join in *.
    destruct (split sep s) as [|piece pieces] eqn:E; [now apply split_not_nil in E|].
    simpl in *. destruct pieces; simpl in *; now rewrite IH.
Qed.

(** No piece holds the separator. *)
Lemma split_pieces (sep : ascii) (s : string) :
  Forall (fun piece => occurs sep piece = false) (split sep s).
Proof.
  induction s as [|c s IH]; simpl.
  - constructor; [reflexivity | constructor].
  - destruct (Ascii.eqb_spec c sep) as [->|N].
    + constructor; [reflexivity | exact IH].
    + destruct (split sep s) as [|piece pieces] eqn:E; [now apply split_not_nil in E|].
      inversion IH; subst. constructor; [|assumption].
      simpl. apply Ascii.eqb_neq in N. now rewrite N.
Qed.

(** There is one piece more than there are separators. *)
Lemma split_length (sep : ascii) (s : string) :
  length (split sep s) = S (count sep s).
Proof.
  induction s as [|c s IH]; simpl; [reflexivity|].
  destruct (Ascii.eqb c sep); simpl; [now rewrite IH|].
  destruct (split sep s); simpl in *; congruence.
Qed.

End Strings.

(** ** Framing: [send] *)

Section Framing.

(** A safe integer is determined by its value. *)
Lemma Integer_ext (x y : Z) (p : isSafeInteger x = true) (q : isSafeInteger y = true) :
  x = y -> Integer x p = Integer y q.
Proof.
  intros <-. f_equal. apply UIP_dec, bool_dec.
Qed.

(** [!n] is false of every number but 0 and NaN. *)
Lemma Number_truthy (n : Number) :
  n <> NaN -> n <> integer 0 -> Number_falsy n = false.
Proof.
  destruct n as [|negative|z safe]; simpl; intros N Z0; [congruence | reflexivity|].
  apply Z.eqb_neq. intros ->. apply Z0. now apply Integer_ext.
Qed.

(** [n === k] is false of every number but [k]. *)
Lemma Number_unequal (n k : Number) : n <> k -> Number_equals n k = false.
Proof.
  destruct n as [|s|x p], k as [|t|y q]; simpl; intros N; try reflexivity.
  - destruct s, t; simpl; congruence.
  - apply Z.eqb_neq. intros E. apply N. now apply Integer_ext.
Qed.

(** C4, as amended.  [send] returns, in this order: the [event:] line; the
    [id:] line exactly when an event id is given and is not the empty string;
    the [retry:] line, which holds the text of the number, exactly when a
    retry duration is given and is none of 0, NaN and 1000; one [data:] line
    per entry of [dataLines], in their order; and the blank terminator
    line. *)
Theorem send_frames_event (event : EventType) (dataLines : list string)
    (options : DatastarEventOptions) :
  exists idLine retryLine,
    send event dataLines options =
      ["event: " +++ EventType_name event +++ LF] ++ idLine ++ retryLine
        ++ map (fun entry => "data: " +++ entry +++ LF) dataLines ++ [LF]
    /\ (forall id, eventId options = Some id -> id <> "" ->
        idLine = ["id: " +++ id +++ LF])
    /\ (eventId options = None \/ eventId options = Some "" -> idLine = [])
    /\ (forall ms, retryDuration options = Some ms ->
        ms <> NaN -> ms <> integer 0 -> ms <> integer 1000 ->
        retryLine = ["retry: " +++ Number_toString ms +++ LF])
    /\ (retryDuration options = None \/ retryDuration options = Some NaN
        \/ retryDuration options = Some (integer 0)
        \/ retryDuration options = Some (integer 1000) -> retryLine = []).
Proof.
  destruct options as [id ms]. unfold send. simpl.
  eexists. eexists. split; [reflexivity|].
  split; [|split; [|split]].
  - intros id' [= ->] N. apply String.eqb_neq in N. now rewrite N.
  - intros [-> | ->]; reflexivity.
  - intros ms' [= ->] N0 N1 N2. unfold falsyNumber, isNumber, orElse.
    rewrite (Number_truthy ms') by assumption.
    rewrite (Number_unequal ms' (integer 1000)) by assumption. reflexivity.
  - intros [-> | [-> | [-> | ->]]]; reflexivity.
Qed.

(** C4, as stated, fails: an event id that is given but empty yields no
    [id:] line, and a retry duration of 0, given and different from 1000,
    yields no [retry:] line. *)
Lemma send_drops_empty_id_and_zero_retry :
  send datastar_patch_signals ["x"] {| eventId := Some ""; retryDuration := Some (integer 0) |}
  = ["event: datastar-patch-signals" +++ LF; "data: x" +++ LF; LF].
Proof. reflexivity. Qed.

(** A retry duration that is NaN yields no [retry:] line; an infinite or a
    negative one is printed. *)
Example send_retry_texts :
  send datastar_patch_signals [] {| eventId := None; retryDuration := Some NaN |}
  = ["event: datastar-patch-signals" +++ LF; LF]
  /\ send datastar_patch_signals []
       {| eventId := None; retryDuration := Some (Infinity false) |}
     = ["event: datastar-patch-signals" +++ LF; "retry: Infinity" +++ LF; LF]
  /\ send datastar_patch_signals []
       {| eventId := None; retryDuration := Some (integer (-5)) |}
     = ["event: datastar-patch-signals" +++ LF; "retry: -5" +++ LF; LF].
Proof. repeat split. Qed.

Example send_full_frame :
  send datastar_patch_elements ["a"; "b"] {| eventId := Some "7"; retryDuration := Some (integer 2500) |}
  = ["event: datastar-patch-elements" +++ LF; "id: 7" +++ LF; "retry: 2500" +++ LF;
     "data: a" +++ LF; "data: b" +++ LF; LF].
Proof. reflexivity. Qed.

End Framing.

(** ** Validation of the patch mode *)

Section ModeValidation.

Lemma includes_modes_In (m : string) :
  includes ElementPatchModes (JString m) = true <-> In m ElementPatchModes.
Proof.
  unfold includes. rewrite existsb_exists. split.
  - intros [x [I E]]. apply String.eqb_eq in E. now subst.
  - intros I. exists m. split; [exact I | apply String.eqb_refl].
Qed.

Lemma invalid_mode_message (m : string) :
  Error (InvalidModeMessage m) =
  Error ("Invalid ElementPatchMode: " +++ DQ +++ m +++ DQ
         +++ ". Valid modes are: outer, inner, replace, prepend, append, before, after, remove").
Proof. reflexivity. Qed.

(** C3, as amended.  For every mode string that is not empty and is not one
    of the eight patch modes, [patchElements] fails, whatever the elements
    and the other options, with the invalid-mode error whose message names
    the value and lists the eight modes. *)
Theorem patchElements_rejects_invalid_mode (elements : option string) (o : Options)
    (m : string) :
  Get (rest o) DatastarDatalinePatchMode = JString m ->
  m <> "" ->
  ~ In m ElementPatchModes ->
  exists e, patchElements elements (Some o) = Throw e /\ InvalidModeError m e.
Proof.
  intros G N I. eexists. split; [|reflexivity].
  unfold patchElements. simpl orEmpty. cbv zeta. rewrite G.
  simpl ToBoolean. apply String.eqb_neq in N. rewrite N. simpl negb.
  unfold validateElementPatchMode.
  destruct (includes ElementPatchModes (JString m)) eqn:E.
  - apply includes_modes_In in E. contradiction.
  - reflexivity.
Qed.

Lemma patchElements_rejects_invalid_mode_witness :
  exists e, patchElements (Some "<div></div>") (modeOnly "bogus") = Throw e
            /\ InvalidModeError "bogus" e.
Proof.
  apply (patchElements_rejects_invalid_mode (Some "<div></div>")
           {| event := noEventOptions; rest := [(DatastarDatalinePatchMode, JString "bogus")] |}
           "bogus").
  - reflexivity.
  - discriminate.
  - simpl. intros H. repeat (destruct H as [H | H]; [discriminate H|]). exact H.
Defined.

(** C3, as stated, fails at the empty mode string: it is none of the eight
    modes, yet the call succeeds and emits it as a mode line. *)
Lemma patchElements_accepts_empty_mode :
  includes ElementPatchModes (JString "") = false
  /\ patchElements (Some "x") (modeOnly "")
     = Normal ["event: datastar-patch-elements" +++ LF; "data: mode " +++ LF;
               "data: elements x" +++ LF; LF].
Proof. split; reflexivity. Qed.

End ModeValidation.

(** ** The control flow of [patchElements] and [patchSignals] *)

Lemma isRemoveWithSelector_true (props : Object) :
  ToBoolean (isRemoveWithSelector props) = true <-> removesBySelector props.
Proof.
  unfold isRemoveWithSelector, removesBySelector, js_and.
  simpl ToBoolean at 1.
  destruct (strict_equals (Get props DatastarDatalinePatchMode) (JString "remove")) eqn:E.
  - split.
    + intros T. split; [|exact T].
      destruct (Get props DatastarDatalinePatchMode); simpl in E; try discriminate.
      apply String.eqb_eq in E. now subst.
    + tauto.
  - simpl. split; [discriminate|].
    intros [M _]. rewrite M in E. simpl in E. discriminate.
Qed.

Section PatchFlow.

Variable o : Options.
Let props : Object := rest o.
Let patchMode : Jsonifiable := Get props DatastarDatalinePatchMode.
Let selector : Jsonifiable := Get props DatastarDatalineSelector.

(** An absent options bag is the empty bag. *)
Lemma patchElements_no_options (elements : option string) :
  patchElements elements None = patchElements elements (Some noOptions).
Proof. reflexivity. Qed.

(** A mode that is given and is not one of the eight ends the call. *)
Lemma patchElements_invalid_mode (elements : option string) :
  ToBoolean patchMode = true ->
  includes ElementPatchModes patchMode = false ->
  patchElements elements (Some o)
  = (text <- ToString patchMode ;; Throw (Error (InvalidModeMessage text))).
Proof.
  intros T I. unfold patchElements. simpl orEmpty. cbv zeta.
  fold props. fold patchMode. rewrite T.
  unfold validateElementPatchMode. rewrite I. simpl negb. cbv iota.
  destruct (ToString patchMode); reflexivity.
Qed.

(** Outside the remove-with-selector case, missing elements end the call. *)
Lemma patchElements_required (elements : option string) :
  modeAccepted props ->
  ToBoolean (isRemoveWithSelector props) = false ->
  missing elements = true ->
  patchElements elements (Some o)
  = Throw (Error "elements is required and cannot be empty").
Proof.
  intros A R M. unfold patchElements. simpl orEmpty. cbv zeta.
  fold props. fold patchMode. rewrite R. simpl negb.
  unfold validateRequired. rewrite M.
  unfold modeAccepted in A. fold patchMode in A.
  destruct (ToBoolean patchMode); [|reflexivity].
  unfold validateElementPatchMode. now rewrite A.
Qed.

(** Outside the remove-with-selector case, a payload with a visible
    character is emitted after the option lines. *)
Lemma patchElements_payload (html : string) :
  modeAccepted props ->
  ToBoolean (isRemoveWithSelector props) = false ->
  blank html = false ->
  patchElements (Some html) (Some o)
  = (optionLines <- eachOptionIsADataLine props ;;
     Normal (send datastar_patch_elements
               (optionLines ++ eachNewlineIsADataLine DatastarDatalineElements html)
               (event o))).
Proof.
  intros A R B. unfold patchElements. simpl orEmpty. cbv zeta.
  fold props. fold patchMode. fold selector. rewrite R. simpl negb.
  unfold validateRequired. rewrite missing_blank, B.
  assert (V : (if ToBoolean patchMode then validateElementPatchMode patchMode
               else Normal tt) = Normal tt).
  { unfold modeAccepted in A. fold patchMode in A.
    destruct (ToBoolean patchMode); [|reflexivity].
    unfold validateElementPatchMode. now rewrite A. }
  rewrite V. simpl bind at 1. simpl bind at 1.
  destruct (negb (ToBoolean selector) && strict_equals patchMode (JString "remove"));
    simpl bind at 1;
    destruct (eachOptionIsADataLine props); reflexivity.
Qed.

(** In the remove-with-selector case the elements are not required, and a
    payload of white space is left out of the event. *)
Lemma patchElements_remove_with_selector (html : string) :
  ToBoolean (isRemoveWithSelector props) = true ->
  patchElements (Some html) (Some o)
  = (optionLines <- eachOptionIsADataLine props ;;
     Normal (send datastar_patch_elements
               (if blank html then optionLines
                else optionLines ++ eachNewlineIsADataLine DatastarDatalineElements html)
               (event o))).
Proof.
  intros R. destruct (proj1 (isRemoveWithSelector_true props) R) as [M S].
  fold patchMode in M. fold selector in S.
  unfold patchElements. simpl orEmpty. cbv zeta.
  fold props. fold patchMode. fold selector. rewrite R. simpl negb.
  rewrite M, S. simpl.
  destruct (eachOptionIsADataLine props) as [optionLines|e]; [|reflexivity].
  simpl. rewrite trim_eqb. destruct (blank html); reflexivity.
Qed.

(** In the remove-with-selector case absent elements reach [elements.trim()]. *)
Lemma patchElements_remove_with_selector_absent :
  ToBoolean (isRemoveWithSelector props) = true ->
  patchElements None (Some o)
  = (optionLines <- eachOptionIsADataLine props ;;
     Throw (TypeError "undefined" "trim")).
Proof.
  intros R. destruct (proj1 (isRemoveWithSelector_true props) R) as [M S].
  fold patchMode in M. fold selector in S.
  unfold patchElements. simpl orEmpty. cbv zeta.
  fold props. fold patchMode. fold selector. rewrite R. simpl negb.
  rewrite M, S. simpl.
  destruct (eachOptionIsADataLine props) as [optionLines|e]; reflexivity.
Qed.

End PatchFlow.

(** ** Option lines *)

Section OptionLines.

Lemma Get_In (props : Object) (key : string) :
  In key (Object_keys props) -> In (key, Get props key) props.
Proof.
  induction props as [|[k v] props IH]; simpl; [tauto|].
  intros [-> | I].
  - rewrite String.eqb_refl. now left.
  - destruct (String.eqb_spec k key) as [->|N]; [now left | right; auto].
Qed.

(** Induction on a value, with the property at hand for the items of an
    array. *)
Lemma Jsonifiable_induction (P : Jsonifiable -> Prop) :
  P JUndefined -> P JNull ->
  (forall b, P (JBoolean b)) -> (forall n, P (JNumber n)) -> (forall s, P (JString s)) ->
  (forall items, Forall P items -> P (JArray items)) ->
  (forall props, P (JObject props)) ->
  forall v, P v.
Proof.
  intros U N B Nu S A O.
  fix IH 1. intros [| |b|n|s|items|props].
  - exact U.
  - exact N.
  - apply B.
  - apply Nu.
  - apply S.
  - apply A. induction items as [|x items IHitems]; constructor; [apply IH | exact IHitems].
  - apply O.
Qed.

Lemma ToString_array (items : list Jsonifiable) :
  ToString (JArray items)
  = (texts <- each itemText items ;; Normal (join "," texts)).
Proof. reflexivity. Qed.

Lemma each_cons {A B} (f : A -> Completion B) (x : A) (xs : list A) :
  each f (x :: xs) = (y <- f x ;; ys <- each f xs ;; Normal (y :: ys)).
Proof. reflexivity. Qed.

Lemma each_outcome {A B} (f : A -> Completion B) (ok : A -> bool)
    (bad : unknown -> Prop) (xs : list A) :
  Forall (fun x => match f x with
                   | Normal _ => ok x = true
                   | Throw e => bad e /\ ok x = false
                   end) xs ->
  match each f xs with
  | Normal _ => forallb ok xs = true
  | Throw e => bad e /\ forallb ok xs = false
  end.
Proof.
  induction xs as [|x xs IH]; intros F; [reflexivity|].
  inversion F as [|? ? Hx Hxs]; subst. specialize (IH Hxs).
  rewrite each_cons. simpl forallb.
  destruct (f x) as [y|e]; simpl bind at 1.
  - rewrite Hx. destruct (each f xs) as [ys|e]; simpl; exact IH.
  - destruct Hx as [Hb ->]. simpl. auto.
Qed.

(** A conversion to a string returns exactly for the values that have a
    text, [undefined] and [null] apart, and throws one error only. *)
Lemma ToString_outcome (v : Jsonifiable) :
  match ToString v with
  | Normal _ => v = JUndefined \/ v = JNull \/ hasText v = true
  | Throw e => e = NotPrimitive /\ v <> JUndefined /\ v <> JNull /\ hasText v = false
  end.
Proof.
  induction v as [| |b|n|s|items IH|props] using Jsonifiable_induction;
    try (simpl; now auto).
  - rewrite ToString_array.
    change (hasText (JArray items)) with (forallb itemHasText items).
    assert (E : match each itemText items with
                | Normal _ => forallb itemHasText items = true
                | Throw e => e = NotPrimitive /\ forallb itemHasText items = false
                end).
    { apply each_outcome with (bad := fun e => e = NotPrimitive).
      apply Forall_forall. intros x I. rewrite Forall_forall in IH.
      specialize (IH x I).
      destruct x as [| |b|n|s|inner|props]; try reflexivity;
        unfold itemText, itemHasText;
        [destruct (ToString (JArray inner)) | destruct (ToString (JObject props))];
        try (destruct IH as [IH | [IH | IH]]; [discriminate | discriminate | exact IH]);
        destruct IH as [-> [_ [_ ->]]]; auto. }
    destruct (each itemText items) as [texts|e]; simpl bind; cbv iota.
    + auto.
    + destruct E as [-> F]. repeat split; try discriminate. exact F.
  - simpl. destruct (has_key props "toString"); simpl; [|auto].
    repeat split; discriminate.
Qed.

(** The call [receiver.toString()] returns exactly for the values that have
    a text. *)
Lemma toString_outcome (receiver : string) (v : Jsonifiable) :
  match toString receiver v with
  | Normal _ => hasText v = true
  | Throw e => ConversionError receiver e /\ hasText v = false
  end.
Proof.
  unfold ConversionError.
  destruct v as [| |b|n|s|items|props]; try (simpl; now eauto).
  - change (toString receiver (JArray items)) with (ToString (JArray items)).
    pose proof (ToString_outcome (JArray items)) as T.
    destruct (ToString (JArray items)) as [text|e].
    + destruct T as [T | [T | T]]; [discriminate | discriminate | exact T].
    + destruct T as [-> [_ [_ F]]]. auto.
  - simpl. destruct (has_key props "toString"); simpl; auto.
Qed.

Lemma toString_hasText (receiver : string) (v : Jsonifiable) :
  hasText v = true -> exists text, toString receiver v = Normal text.
Proof.
  intros H. pose proof (toString_outcome receiver v) as T.
  destruct (toString receiver v) as [text|e]; [now exists text|].
  destruct T as [_ F]. congruence.
Qed.

Lemma flatMap_total (f : string -> Completion (list string)) (keys : list string) :
  (forall key, In key keys -> exists lines, f key = Normal lines) ->
  exists lines, flatMap f keys = Normal lines.
Proof.
  induction keys as [|key keys IH]; intros H; simpl.
  - now exists [].
  - destruct (H key) as [lines E]; [now left|]. rewrite E. simpl.
    destruct IH as [more E']; [intros k I; apply H; now right|].
    rewrite E'. simpl. now eexists.
Qed.

Lemma flatMap_lines (f : string -> Completion (list string)) (keys : list string)
    (lines : list string) :
  flatMap f keys = Normal lines ->
  forall line, In line lines ->
  exists key produced, In key keys /\ f key = Normal produced /\ In line produced.
Proof.
  revert lines. induction keys as [|key keys IH]; simpl; intros lines E line I.
  - injection E as <-. destruct I.
  - destruct (f key) as [produced|e] eqn:F; simpl in E; [|discriminate].
    destruct (flatMap f keys) as [more|e]; simpl in E; [|discriminate].
    injection E as <-. apply in_app_or in I as [I | I].
    + exists key, produced. auto.
    + destruct (IH more eq_refl line I) as [k [p [Ik [Fk Ip]]]].
      exists k, p. auto.
Qed.

(** When every option holds a value that has a text, the option lines are
    produced. *)
Lemma eachOptionIsADataLine_defined (props : Object) :
  allHaveText props -> exists lines, eachOptionIsADataLine props = Normal lines.
Proof.
  intros D. unfold eachOptionIsADataLine. apply flatMap_total.
  intros key I. apply filter_In in I as [I _].
  apply Get_In in I. unfold allHaveText in D. rewrite Forall_forall in D.
  pose proof (D _ I) as H. simpl in H.
  destruct (toString_hasText "options[key]" _ H) as [text ->]. simpl. now eexists.
Qed.

(** Every option line is a key of the bag, a space, and text. *)
Lemma eachOptionIsADataLine_shape (props : Object) (lines : list string) :
  eachOptionIsADataLine props = Normal lines ->
  forall line, In line lines ->
  exists key text, In key (Object_keys props) /\ line = key +++ " " +++ text.
Proof.
  intros E line I. unfold eachOptionIsADataLine in E.
  destruct (flatMap_lines _ _ _ E line I) as [key [produced [Ik [F Ip]]]].
  apply filter_In in Ik as [Ik _].
  destruct (toString "options[key]" (Get props key)) as [text|e];
    simpl in F; [|discriminate].
  injection F as <-. unfold eachNewlineIsADataLine in Ip.
  apply in_map_iff in Ip as [piece [<- _]].
  now exists key, piece.
Qed.

Lemma append_assoc (a b c : string) : (a +++ b) +++ c = a +++ b +++ c.
Proof. induction a as [|x a IH]; simpl; [reflexivity | now rewrite IH]. Qed.

Lemma startsWith_key (p key text : string) :
  occurs " " p = false ->
  startsWith (p +++ " ") (key +++ " " +++ text) = true ->
  startsWith p key = true.
Proof.
  revert key. induction p as [|a p IH]; intros key O S; [reflexivity|].
  simpl in O. apply orb_false_iff in O as [A O].
  destruct key as [|c key]; simpl in *.
  - rewrite A in S. discriminate.
  - apply andb_true_iff in S as [E S]. rewrite E. simpl. now apply IH.
Qed.

Lemma lastChar_cons (c : ascii) (s : string) :
  lastChar (String c s)
  = match lastChar s with Some x => Some x | None => Some c end.
Proof.
  revert c. induction s as [|a s IH]; intros c; [reflexivity|].
  change (lastChar (String c (String a s))) with (lastChar (String a s)).
  rewrite IH. destruct (lastChar s); reflexivity.
Qed.

Lemma lastChar_append (p q : string) :
  lastChar (p +++ q)
  = match lastChar q with Some x => Some x | None => lastChar p end.
Proof.
  induction p as [|c p IH]; simpl append.
  - destruct (lastChar q); reflexivity.
  - rewrite lastChar_cons, IH, (lastChar_cons c p).
    destruct (lastChar q); [reflexivity|]. destruct (lastChar p); reflexivity.
Qed.

(** A frame whose data lines are option lines has no elements line, if no
    option is named like the elements field. *)
Lemma send_option_lines_only (props : Object) (optionLines : list string)
    (ev : DatastarEventOptions) :
  eachOptionIsADataLine props = Normal optionLines ->
  noElementsOption props ->
  Forall (fun line => isDataLineOf DatastarDatalineElements line = false)
         (send datastar_patch_elements optionLines ev).
Proof.
  intros E K. unfold send.
  repeat rewrite Forall_app. repeat split.
  - one_line.
  - destruct (eventId ev) as [id|]; [|constructor].
    destruct (String.eqb id ""); [constructor | one_line].
  - destruct (falsyNumber (retryDuration ev) || isNumber (retryDuration ev) (integer 1000));
      [constructor | one_line].
  - apply Forall_forall. intros line I.
    apply in_map_iff in I as [data [<- I]].
    destruct (eachOptionIsADataLine_shape _ _ E _ I) as [key [text [Ik ->]]].
    destruct (isDataLineOf DatastarDatalineElements
                ("data: " +++ (key +++ " " +++ text) +++ LF)) eqn:S; [|reflexivity].
    unfold isDataLineOf in S. simpl in S.
    rewrite !append_assoc in S.
    apply (startsWith_key "elements") in S; [|reflexivity].
    pose proof (K key Ik) as F. unfold DatastarDatalineElements in F. congruence.
  - one_line.
Qed.

Lemma flatMap_throws (f : string -> Completion (list string)) (keys : list string)
    (e : unknown) :
  flatMap f keys = Throw e -> exists key, In key keys /\ f key = Throw e.
Proof.
  induction keys as [|key keys IH]; simpl; [discriminate|].
  destruct (f key) as [lines|e'] eqn:F; simpl.
  - destruct (flatMap f keys) as [more|e'']; simpl; [discriminate|].
    intros [= ->]. destruct (IH eq_refl) as [k [I E]]. exists k. auto.
  - intros [= ->]. exists key. auto.
Qed.

(** The option lines fail only on an option that is emitted and holds a
    value without a text, with the error of its conversion. *)
Lemma eachOptionIsADataLine_throws (props : Object) (e : unknown) :
  eachOptionIsADataLine props = Throw e ->
  ConversionError "options[key]" e
  /\ exists key, In key (Object_keys props)
                 /\ hasDefaultValue key (Get props key) = false
                 /\ hasText (Get props key) = false.
Proof.
  intros E. apply flatMap_throws in E as [key [I E]].
  apply filter_In in I as [I D]. apply negb_true_iff in D.
  pose proof (toString_outcome "options[key]" (Get props key)) as T.
  destruct (toString "options[key]" (Get props key)) as [text|e']; simpl in E;
    [discriminate|].
  injection E as <-. destruct T as [C F]. split; [exact C|].
  exists key. auto.
Qed.

(** No conversion error is a plain [Error]. *)
Lemma ConversionError_name (receiver : string) (e : unknown) :
  ConversionError receiver e ->
  exists name message, name <> "Error" /\ e = ErrorObject name message.
Proof.
  intros [[what ->] | [-> | ->]]; eexists; eexists; (split; [|reflexivity]); discriminate.
Qed.

(** The rejection of a mode throws: the invalid-mode error that names the
    text of the mode, or the error of converting the mode to a text. *)
Lemma invalid_mode_throws (mode : Jsonifiable) :
  exists e,
    (text <- ToString mode ;; Throw (Error (InvalidModeMessage text)))
    = (Throw e : Completion (list string))
    /\ ((exists text, e = Error (InvalidModeMessage text)) \/ e = NotPrimitive).
Proof.
  pose proof (ToString_outcome mode) as T.
  destruct (ToString mode) as [text|e]; simpl.
  - eexists. split; [reflexivity|]. left. now exists text.
  - destruct T as [-> _]. eexists. split; [reflexivity|]. now right.
Qed.

End OptionLines.

(** ** Required parameters *)

Section RequiredParameters.

Lemma required_elements_error :
  RequiredParameterError (Error "elements is required and cannot be empty").
Proof. left. now exists "elements". Qed.

Lemma required_signals_error :
  RequiredParameterError (Error "signals is required and cannot be empty").
Proof. left. now exists "signals". Qed.

Create HintDb datastar discriminated.
#[local] Hint Resolve required_elements_error required_signals_error : datastar.

Lemma invalid_mode_not_required (m : string) (e : unknown) :
  InvalidModeError m e -> ~ RequiredParameterError e.
Proof.
  unfold InvalidModeError. intros -> [[paramName E] | [E | E]].
  - unfold Error in E.
    apply (f_equal (fun e => match e with
                             | ErrorObject _ message => lastChar message
                             | Value _ => None
                             end)) in E.
    cbv beta iota in E. rewrite !lastChar_append in E. simpl in E. discriminate E.
  - discriminate E.
  - discriminate E.
Qed.

Lemma not_removesBySelector (props : Object) :
  ~ removesBySelector props -> ToBoolean (isRemoveWithSelector props) = false.
Proof.
  intros N. destruct (ToBoolean (isRemoveWithSelector props)) eqn:R; [|reflexivity].
  apply isRemoveWithSelector_true in R. contradiction.
Qed.

(** C1, as amended.  Take a call of [patchElements] whose mode, if given, is
    one of the eight patch modes.  With the empty string for elements, the
    call succeeds only if the mode is "remove" and the selector is not
    empty; in that case, when every option holds a value that has a text
    (a string, a number, a boolean, an object without an own property
    [toString], or an array of such items), it succeeds, its data lines are
    the option lines alone, and no returned line is an elements data line
    (no option being named like the elements field).  In every other case
    the call fails, for empty and for absent elements, with the
    required-parameter error for the elements. *)
Theorem patchElements_empty_elements (o : Options) :
  modeAccepted (rest o) ->
  ((exists lines, patchElements (Some "") (Some o) = Normal lines) ->
   removesBySelector (rest o))
  /\ (removesBySelector (rest o) -> allHaveText (rest o) ->
      exists optionLines,
        eachOptionIsADataLine (rest o) = Normal optionLines
        /\ patchElements (Some "") (Some o)
           = Normal (send datastar_patch_elements optionLines (event o))
        /\ (noElementsOption (rest o) ->
            Forall (fun line => isDataLineOf DatastarDatalineElements line = false)
                   (send datastar_patch_elements optionLines (event o))))
  /\ (~ removesBySelector (rest o) ->
      forall elements, elements = None \/ elements = Some "" ->
      exists e, patchElements elements (Some o) = Throw e
                /\ e = Error "elements is required and cannot be empty"
                /\ RequiredParameterError e).
Proof.
  intros A.
  assert (F : ~ removesBySelector (rest o) ->
              forall elements, elements = None \/ elements = Some "" ->
              patchElements elements (Some o)
              = Throw (Error "elements is required and cannot be empty")).
  { intros N elements E. apply patchElements_required; auto using not_removesBySelector.
    destruct E as [-> | ->]; reflexivity. }
  split; [|split].
  - intros [lines E].
    destruct (ToBoolean (isRemoveWithSelector (rest o))) eqn:R.
    + now apply isRemoveWithSelector_true in R.
    + rewrite patchElements_required in E; auto. discriminate.
  - intros R D. apply isRemoveWithSelector_true in R.
    destruct (eachOptionIsADataLine_defined _ D) as [optionLines E].
    exists optionLines. split; [exact E|]. split.
    + rewrite patchElements_remove_with_selector by exact R. now rewrite E.
    + intros K. now apply send_option_lines_only with (props := rest o).
  - intros N elements E. eexists. split; [now apply F|].
    split; [reflexivity | auto with datastar].
Qed.

Lemma patchElements_empty_elements_witness :
  exists optionLines,
    eachOptionIsADataLine
      [(DatastarDatalinePatchMode, JString "remove"); (DatastarDatalineSelector, JString "#x")]
    = Normal optionLines
    /\ patchElements (Some "")
         (bag noEventOptions
            [(DatastarDatalinePatchMode, JString "remove"); (DatastarDatalineSelector, JString "#x")])
       = Normal (send datastar_patch_elements optionLines noEventOptions).
Proof.
  destruct (patchElements_empty_elements
              {| event := noEventOptions;
                 rest := [(DatastarDatalinePatchMode, JString "remove");
                          (DatastarDatalineSelector, JString "#x")] |})
    as [_ [S _]].
  - intros _. reflexivity.
  - destruct S as [optionLines [E [P _]]].
    + split; reflexivity.
    + repeat constructor.
    + exists optionLines. split; [exact E | exact P].
Defined.

(** The specification's example: removal by selector with no elements. *)
Example patchElements_remove_by_selector :
  patchElements (Some "")
    (bag noEventOptions
       [(DatastarDatalinePatchMode, JString "remove"); (DatastarDatalineSelector, JString "#x")])
  = Normal ["event: datastar-patch-elements" +++ LF; "data: mode remove" +++ LF;
            "data: selector #x" +++ LF; LF].
Proof. reflexivity. Qed.

(** C1, as stated, fails in these ways: a selector that is supplied but empty
    does not make the call succeed; with an invalid mode the failure is the
    invalid-mode error, not the required-parameter error; absent elements
    fail even in remove mode with a selector; so does a call one of whose
    options holds [undefined]; and an option named like the elements field
    is emitted as a line of that field. *)
Lemma patchElements_empty_elements_counterexample :
  patchElements (Some "")
    (bag noEventOptions
       [(DatastarDatalinePatchMode, JString "remove"); (DatastarDatalineSelector, JString "")])
  = Throw (Error "elements is required and cannot be empty")
  /\ (exists e, patchElements (Some "") (modeOnly "bogus") = Throw e
                /\ InvalidModeError "bogus" e /\ ~ RequiredParameterError e)
  /\ patchElements None
       (bag noEventOptions
          [(DatastarDatalinePatchMode, JString "remove"); (DatastarDatalineSelector, JString "#x")])
     = Throw (TypeError "undefined" "trim")
  /\ patchElements (Some "")
       (bag noEventOptions
          [(DatastarDatalinePatchMode, JString "remove"); (DatastarDatalineSelector, JString "#x");
           (DatastarDatalineUseViewTransition, JUndefined)])
     = Throw (TypeError "undefined" "toString")
  /\ patchElements (Some "")
       (bag noEventOptions
          [(DatastarDatalinePatchMode, JString "remove"); (DatastarDatalineSelector, JString "#x");
           (DatastarDatalineElements, JString "y")])
     = Normal ["event: datastar-patch-elements" +++ LF; "data: mode remove" +++ LF;
               "data: selector #x" +++ LF; "data: elements y" +++ LF; LF].
Proof.
  split; [reflexivity|]. split; [|repeat split].
  eexists. split; [reflexivity|].
  assert (I : InvalidModeError "bogus" (Error (InvalidModeMessage "bogus"))) by reflexivity.
  split; [exact I | exact (invalid_mode_not_required _ _ I)].
Qed.

(** X16.  The second check of [patchElements], for remove mode without
    selector, never decides: its error is not an outcome of the function. *)
Lemma patchElements_second_check_unreachable (elements : option string)
    (options : option Options) :
  patchElements elements options
  <> Throw (Error "For remove mode without selector, elements parameter with IDs is required").
Proof.
  assert (T : forall (lines : list string -> Completion (list string)) props e,
             (forall optionLines e', lines optionLines = Throw e' ->
                                     exists name message, name <> "Error" /\ e' = ErrorObject name message) ->
             (optionLines <- eachOptionIsADataLine props ;; lines optionLines) = Throw e ->
             exists name message, name <> "Error" /\ e = ErrorObject name message).
  { intros lines props e L E.
    destruct (eachOptionIsADataLine props) as [optionLines|e'] eqn:O; simpl in E.
    - eapply L, E.
    - injection E as ->. apply eachOptionIsADataLine_throws in O as [C _].
      now apply ConversionError_name in C. }
  assert (Accepted : forall o, modeAccepted (rest o) ->
             patchElements elements (Some o)
             <> Throw (Error "For remove mode without selector, elements parameter with IDs is required")).
  { intros o A E.
    destruct (ToBoolean (isRemoveWithSelector (rest o))) eqn:R.
    - destruct elements as [html|].
      + rewrite patchElements_remove_with_selector in E by exact R.
        apply T in E as [name [message [N [= <- _]]]]; [now apply N|].
        intros optionLines e'. discriminate.
      + rewrite patchElements_remove_with_selector_absent in E by exact R.
        apply T in E as [name [message [N [= <- _]]]]; [now apply N|].
        intros optionLines e' [= <-]. eexists. eexists. split; [|reflexivity]. discriminate.
    - destruct (missing elements) eqn:M.
      + rewrite patchElements_required in E by assumption. discriminate E.
      + destruct elements as [html|]; [|discriminate M].
        rewrite missing_blank in M.
        rewrite patchElements_payload in E by assumption.
        apply T in E as [name [message [N [= <- _]]]]; [now apply N|].
        intros optionLines e'. discriminate. }
  assert (Some_case : forall o,
             patchElements elements (Some o)
             <> Throw (Error "For remove mode without selector, elements parameter with IDs is required")).
  { intros o.
    destruct (ToBoolean (Get (rest o) DatastarDatalinePatchMode)) eqn:TB.
    - destruct (includes ElementPatchModes (Get (rest o) DatastarDatalinePatchMode)) eqn:I.
      + apply Accepted. intros _. exact I.
      + rewrite patchElements_invalid_mode by assumption.
        destruct (invalid_mode_throws (Get (rest o) DatastarDatalinePatchMode))
          as [e [-> [[text ->] | ->]]]; discriminate.
    - apply Accepted. intros B. rewrite TB in B. discriminate. }
  destruct options as [o|]; [apply Some_case|].
  rewrite patchElements_no_options. apply Some_case.
Qed.

(** [removeElements] by selector, and by elements: in the second call the
    options bag holds the selector as [undefined], on which the option
    lines fail. *)
Example removeElements_by_selector_and_by_elements :
  removeElements (Some "#feed, #otherid") None None
  = Normal ["event: datastar-patch-elements" +++ LF;
            "data: selector #feed, #otherid" +++ LF;
            "data: mode remove" +++ LF; LF]
  /\ removeElements None (Some "<div></div>") None
     = Throw (TypeError "undefined" "toString").
Proof. split; reflexivity. Qed.

Lemma blank_false_iff (s : string) :
  blank s = false
  <-> exists c, In c (list_ascii_of_string s) /\ isWhiteSpace c = false.
Proof.
  induction s as [|a s IH]; simpl.
  - split; [discriminate | intros [c [[] _]]].
  - destruct (isWhiteSpace a) eqn:W; simpl.
    + rewrite IH. split.
      * intros [c [I N]]. exists c. auto.
      * intros [c [[<- | I] N]]; [congruence | now exists c].
    + split; [|reflexivity]. intros _. exists a. auto.
Qed.

Lemma patchSignals_required (signals : option string) (options : option Options) :
  missing signals = true ->
  patchSignals signals options
  = Throw (Error "signals is required and cannot be empty").
Proof. intros M. unfold patchSignals, validateRequired. now rewrite M. Qed.

(** Missing elements end [patchElements] outside the remove-with-selector
    case, whatever is missing: with one and the same outcome. *)
Lemma patchElements_missing (o : Options) (elements : option string) :
  ToBoolean (isRemoveWithSelector (rest o)) = false ->
  missing elements = true ->
  exists e, patchElements elements (Some o) = Throw e
            /\ patchElements None (Some o) = Throw e.
Proof.
  intros R M.
  destruct (ToBoolean (Get (rest o) DatastarDatalinePatchMode)) eqn:T.
  - destruct (includes ElementPatchModes (Get (rest o) DatastarDatalinePatchMode)) eqn:I.
    + eexists. split; apply patchElements_required; auto; intros _; exact I.
    + destruct (invalid_mode_throws (Get (rest o) DatastarDatalinePatchMode))
        as [e [E _]].
      exists e. rewrite !patchElements_invalid_mode by assumption. auto.
  - eexists. split; apply patchElements_required; auto;
      intros T'; rewrite T in T'; discriminate.
Qed.

(** C9.  A string of white space is treated by the required-parameter check
    as the empty string is: [patchSignals], and [patchElements] outside the
    remove-with-selector case, fail on it with the very outcome they have on
    the empty string and on an absent argument; and whenever they succeed,
    the string holds a character that is not white space. *)
Theorem blank_is_missing (s : string) :
  (blank s = true ->
   (forall options,
       patchSignals (Some s) options
       = Throw (Error "signals is required and cannot be empty")
       /\ patchSignals (Some s) options = patchSignals (Some "") options
       /\ patchSignals (Some s) options = patchSignals None options)
   /\ (forall o, ToBoolean (isRemoveWithSelector (rest o)) = false ->
       exists e,
         patchElements (Some s) (Some o) = Throw e
         /\ patchElements (Some "") (Some o) = Throw e
         /\ patchElements None (Some o) = Throw e))
  /\ (forall options lines,
      patchSignals (Some s) options = Normal lines ->
      exists c, In c (list_ascii_of_string s) /\ isWhiteSpace c = false)
  /\ (forall o lines,
      ToBoolean (isRemoveWithSelector (rest o)) = false ->
      patchElements (Some s) (Some o) = Normal lines ->
      exists c, In c (list_ascii_of_string s) /\ isWhiteSpace c = false).
Proof.
  split; [|split].
  - intros B. split.
    + intros options.
      rewrite !patchSignals_required; auto.
      now rewrite missing_blank.
    + intros o R.
      destruct (patchElements_missing o (Some s) R) as [e [E1 E2]];
        [now rewrite missing_blank|].
      destruct (patchElements_missing o (Some "") R) as [e' [E3 E4]]; [reflexivity|].
      exists e. rewrite E1, E3, E4. rewrite E2 in E4. injection E4 as <-. auto.
  - intros options lines E. apply blank_false_iff.
    destruct (blank s) eqn:B; [|reflexivity].
    rewrite patchSignals_required in E; [discriminate | now rewrite missing_blank].
  - intros o lines R E. apply blank_false_iff.
    destruct (blank s) eqn:B; [|reflexivity].
    destruct (patchElements_missing o (Some s) R) as [e [E1 _]];
      [now rewrite missing_blank|].
    rewrite E1 in E. discriminate.
Qed.

Example blank_signals_fail :
  patchSignals (Some (" " +++ LF +++ "  ")) None
  = Throw (Error "signals is required and cannot be empty").
Proof. reflexivity. Qed.

Example blank_elements_fail :
  patchElements (Some (" " +++ LF +++ "  ")) (modeOnly "append")
  = Throw (Error "elements is required and cannot be empty").
Proof. reflexivity. Qed.

Lemma remove_elements_error :
  RequiredParameterError
    (Error "Either selector or elements (with IDs) must be provided to remove elements.").
Proof. right. now right. Qed.

(** C10.  In remove mode an empty selector is an absent selector: the
    remove-with-selector case does not apply, so that [patchElements] with
    missing elements fails with the required-parameter error for the
    elements, and [removeElements] with an empty selector and missing
    elements fails with its own required-parameter error, as both do when
    no selector is supplied. *)
Theorem empty_selector_is_no_selector (elements : option string) :
  missing elements = true ->
  (forall o,
      Get (rest o) DatastarDatalinePatchMode = JString "remove" ->
      Get (rest o) DatastarDatalineSelector = JString ""
      \/ Get (rest o) DatastarDatalineSelector = JUndefined ->
      ToBoolean (isRemoveWithSelector (rest o)) = false
      /\ patchElements elements (Some o)
         = Throw (Error "elements is required and cannot be empty"))
  /\ (forall options,
      removeElements (Some "") elements options
      = Throw (Error "Either selector or elements (with IDs) must be provided to remove elements.")
      /\ removeElements (Some "") elements options = removeElements None elements options)
  /\ RequiredParameterError (Error "elements is required and cannot be empty")
  /\ RequiredParameterError
       (Error "Either selector or elements (with IDs) must be provided to remove elements.").
Proof.
  intros M. split; [|split; [|split]].
  - intros o Mode Sel.
    assert (R : ToBoolean (isRemoveWithSelector (rest o)) = false).
    { apply not_removesBySelector. intros [_ T].
      destruct Sel as [S | S]; rewrite S in T; discriminate. }
    split; [exact R|].
    apply patchElements_required; auto.
    intros _. now rewrite Mode.
  - intros options. unfold removeElements. simpl absentOrEmpty. now rewrite M.
  - auto with datastar.
  - apply remove_elements_error.
Qed.

Lemma empty_selector_is_no_selector_witness :
  patchElements (Some "")
    (bag noEventOptions
       [(DatastarDatalinePatchMode, JString "remove"); (DatastarDatalineSelector, JString "")])
  = Throw (Error "elements is required and cannot be empty")
  /\ removeElements (Some "") (Some "") None = removeElements None (Some "") None.
Proof.
  destruct (empty_selector_is_no_selector (Some "") eq_refl) as [P [R _]].
  split.
  - apply (P {| event := noEventOptions;
                rest := [(DatastarDatalinePatchMode, JString "remove");
                         (DatastarDatalineSelector, JString "")] |}).
    + reflexivity.
    + left. reflexivity.
  - apply R.
Defined.

End RequiredParameters.

(** ** Data lines *)

Section DataLines.

Lemma send_data_tail (event : EventType) (before payload : list string)
    (ev : DatastarEventOptions) :
  exists head,
    send event (before ++ payload) ev
    = head ++ map (fun data => "data: " +++ data +++ LF) payload ++ [LF].
Proof.
  unfold send. rewrite map_app.
  eexists. rewrite !app_assoc. reflexivity.
Qed.

Lemma elements_data_lines (pieces : list string) :
  map (fun data => "data: " +++ data +++ LF)
      (map (fun line => DatastarDatalineElements +++ " " +++ line) pieces)
  = map (dataLine DatastarDatalineElements) pieces.
Proof.
  rewrite map_map. apply map_ext. intros piece.
  unfold dataLine. simpl. reflexivity.
Qed.

Lemma signals_data_lines (pieces : list string) :
  map (fun data => "data: " +++ data +++ LF)
      (map (fun line => DatastarDatalineSignals +++ " " +++ line) pieces)
  = map (dataLine DatastarDatalineSignals) pieces.
Proof.
  rewrite map_map. apply map_ext. intros piece.
  unfold dataLine. simpl. reflexivity.
Qed.

(** A payload with a visible character is emitted by [patchElements] in
    every case, after the option lines. *)
Lemma patchElements_visible_payload (o : Options) (html : string)
    (optionLines : list string) :
  blank html = false ->
  modeAccepted (rest o) ->
  eachOptionIsADataLine (rest o) = Normal optionLines ->
  patchElements (Some html) (Some o)
  = Normal (send datastar_patch_elements
              (optionLines ++ eachNewlineIsADataLine DatastarDatalineElements html)
              (event o)).
Proof.
  intros B A E.
  destruct (ToBoolean (isRemoveWithSelector (rest o))) eqn:R.
  - rewrite patchElements_remove_with_selector by exact R.
    now rewrite E, B.
  - rewrite patchElements_payload by assumption. now rewrite E.
Qed.

Lemma patchSignals_visible_payload (o : Options) (json : string)
    (optionLines : list string) :
  blank json = false ->
  eachOptionIsADataLine (rest o) = Normal optionLines ->
  patchSignals (Some json) (Some o)
  = Normal (send datastar_patch_signals
              (optionLines ++ eachNewlineIsADataLine DatastarDatalineSignals json)
              (event o)).
Proof.
  intros B E. unfold patchSignals, validateRequired.
  rewrite missing_blank, B. simpl. now rewrite E.
Qed.

(** C6, as amended.  The physical lines of a payload are the pieces between
    its line feeds: joined by line feeds they give the payload back, none
    holds a line feed, and there is one more of them than line feeds.  Every
    data-line helper call turns them, in order, into prefixed lines.  For
    every payload that holds a character other than white space, an accepted
    call of [patchElements] or [patchSignals] returns an event that ends
    with one framed data line per physical line, in their order, and the
    blank terminator. *)
Theorem one_data_line_per_physical_line (payload : string) :
  exists pieces,
    join LF pieces = payload
    /\ Forall (fun piece => occurs LF_char piece = false) pieces
    /\ length pieces = S (count LF_char payload)
    /\ (forall prefix,
        eachNewlineIsADataLine prefix payload
        = map (fun piece => prefix +++ " " +++ piece) pieces)
    /\ (blank payload = false ->
        (forall o optionLines,
            modeAccepted (rest o) ->
            eachOptionIsADataLine (rest o) = Normal optionLines ->
            exists head,
              patchElements (Some payload) (Some o)
              = Normal (head ++ map (dataLine DatastarDatalineElements) pieces ++ [LF]))
        /\ (forall o optionLines,
            eachOptionIsADataLine (rest o) = Normal optionLines ->
            exists head,
              patchSignals (Some payload) (Some o)
              = Normal (head ++ map (dataLine DatastarDatalineSignals) pieces ++ [LF]))).
Proof.
  exists (split LF_char payload).
  split; [apply join_split|].
  split; [apply split_pieces|].
  split; [apply split_length|].
  split; [reflexivity|].
  intros B. split.
  - intros o optionLines A E.
    rewrite (patchElements_visible_payload o payload optionLines B A E).
    destruct (send_data_tail datastar_patch_elements optionLines
                (eachNewlineIsADataLine DatastarDatalineElements payload) (event o))
      as [head H].
    exists head. rewrite H. unfold eachNewlineIsADataLine.
    now rewrite elements_data_lines.
  - intros o optionLines E.
    rewrite (patchSignals_visible_payload o payload optionLines B E).
    destruct (send_data_tail datastar_patch_signals optionLines
                (eachNewlineIsADataLine DatastarDatalineSignals payload) (event o))
      as [head H].
    exists head. rewrite H. unfold eachNewlineIsADataLine.
    now rewrite signals_data_lines.
Qed.

(** The specification's example: an elements payload of three lines. *)
Example three_lines_three_data_lines :
  patchElements (Some ("<ul>" +++ LF +++ "<li>one</li>" +++ LF +++ "</ul>")) None
  = Normal ["event: datastar-patch-elements" +++ LF;
            "data: elements <ul>" +++ LF;
            "data: elements <li>one</li>" +++ LF;
            "data: elements </ul>" +++ LF;
            LF].
Proof. reflexivity. Qed.

(** C6, as stated, fails for a payload of white space: in remove mode with
    a selector the event is emitted, and the payload, which here holds a
    line feed and so has two physical lines, contributes no data line. *)
Lemma blank_payload_has_no_data_lines :
  occurs LF_char LF = true
  /\ length (split LF_char LF) = 2%nat
  /\ patchElements (Some LF)
       (bag noEventOptions
          [(DatastarDatalinePatchMode, JString "remove"); (DatastarDatalineSelector, JString "#x")])
     = Normal ["event: datastar-patch-elements" +++ LF; "data: mode remove" +++ LF;
               "data: selector #x" +++ LF; LF].
Proof. repeat split. Qed.

End DataLines.

(** ** Elision of the default mode *)

Section DefaultMode.

Lemma elements_lines_not_mode (html : string) :
  Forall (fun line => isDataLineOf DatastarDatalinePatchMode line = false)
         (map (fun data => "data: " +++ data +++ LF)
              (eachNewlineIsADataLine DatastarDatalineElements html)).
Proof.
  apply Forall_forall. intros line I.
  apply in_map_iff in I as [data [<- I]].
  unfold eachNewlineIsADataLine in I.
  apply in_map_iff in I as [piece [<- _]]. reflexivity.
Qed.

Lemma frame_lines_not_mode (ev : DatastarEventOptions) (html : string) :
  Forall (fun line => isDataLineOf DatastarDatalinePatchMode line = false)
         (send datastar_patch_elements
               (eachNewlineIsADataLine DatastarDatalineElements html) ev).
Proof.
  unfold send. repeat rewrite Forall_app. repeat split.
  - one_line.
  - destruct (eventId ev) as [id|]; [|constructor].
    destruct (String.eqb id ""); [constructor | one_line].
  - destruct (falsyNumber (retryDuration ev) || isNumber (retryDuration ev) (integer 1000));
      [constructor | one_line].
  - apply elements_lines_not_mode.
  - one_line.
Qed.

Lemma first_data_line (event : EventType) (data : string) (more : list string)
    (ev : DatastarEventOptions) :
  In ("data: " +++ data +++ LF) (send event (data :: more) ev).
Proof.
  unfold send. cbv zeta.
  apply in_or_app; right. apply in_or_app; right. apply in_or_app; right.
  simpl. now left.
Qed.

(** The outcome of [patchElements(html, {mode: m})] for a valid mode and a
    payload with a visible character. *)
Lemma patchElements_mode_only (m html : string) (ev : DatastarEventOptions) :
  In m ElementPatchModes ->
  blank html = false ->
  patchElements (Some html) (bag ev [(DatastarDatalinePatchMode, JString m)])
  = Normal (send datastar_patch_elements
              ((if String.eqb m DefaultElementPatchMode then [] else ["mode " +++ m])
               ++ eachNewlineIsADataLine DatastarDatalineElements html) ev).
Proof.
  intros I B. unfold bag.
  apply (patchElements_visible_payload
           {| event := ev; rest := [(DatastarDatalinePatchMode, JString m)] |});
    [exact B | |].
  - intros _. simpl rest. simpl Get. now apply includes_modes_In.
  - simpl rest. unfold ElementPatchModes in I. simpl in I.
    repeat (destruct I as [<- | I]; [reflexivity|]). destruct I.
Qed.

(** C7, as amended.  For every valid patch mode [m] and every html that
    holds a character other than white space, [patchElements(html, {mode: m})]
    succeeds, and its output has the data line of mode [m] exactly when [m]
    is not the default mode "outer"; for "outer" it has no mode data line at
    all. *)
Theorem mode_line_iff_not_default (m html : string) (ev : DatastarEventOptions) :
  In m ElementPatchModes ->
  blank html = false ->
  exists lines,
    patchElements (Some html) (bag ev [(DatastarDatalinePatchMode, JString m)])
    = Normal lines
    /\ (In (dataLine DatastarDatalinePatchMode m) lines <-> m <> DefaultElementPatchMode)
    /\ (m = DefaultElementPatchMode ->
        Forall (fun line => isDataLineOf DatastarDatalinePatchMode line = false) lines).
Proof.
  intros I B. eexists. split; [apply patchElements_mode_only; assumption|].
  destruct (String.eqb_spec m DefaultElementPatchMode) as [->|N].
  - simpl app. split.
    + split; [|congruence]. intros L.
      pose proof (frame_lines_not_mode ev html) as F.
      rewrite Forall_forall in F. apply F in L. discriminate L.
    + intros _. apply frame_lines_not_mode.
  - split; [|congruence]. split; [auto|]. intros _.
    change (dataLine DatastarDatalinePatchMode m) with ("data: " +++ ("mode " +++ m) +++ LF).
    apply first_data_line.
Qed.

Lemma mode_line_iff_not_default_witness :
  exists lines,
    patchElements (Some "<p>hi</p>") (modeOnly "inner") = Normal lines
    /\ (In (dataLine DatastarDatalinePatchMode "inner") lines
        <-> "inner" <> DefaultElementPatchMode)
    /\ ("inner" = DefaultElementPatchMode ->
        Forall (fun line => isDataLineOf DatastarDatalinePatchMode line = false) lines).
Proof.
  apply (mode_line_iff_not_default "inner" "<p>hi</p>" noEventOptions).
  - simpl. right. left. reflexivity.
  - reflexivity.
Defined.

Example mode_lines_by_mode :
  patchElements (Some "<p>hi</p>") (modeOnly "outer")
  = Normal ["event: datastar-patch-elements" +++ LF; "data: elements <p>hi</p>" +++ LF; LF]
  /\ patchElements (Some "<p>hi</p>") (modeOnly "remove")
     = Normal ["event: datastar-patch-elements" +++ LF; "data: mode remove" +++ LF;
               "data: elements <p>hi</p>" +++ LF; LF].
Proof. split; reflexivity. Qed.

(** C7, as stated, fails for an html that is not empty but holds white space
    only: the mode "inner" is valid and is not the default, yet the call
    fails and returns no line. *)
Lemma blank_html_has_no_mode_line :
  " " <> ""
  /\ In "inner" ElementPatchModes
  /\ "inner" <> DefaultElementPatchMode
  /\ patchElements (Some " ") (modeOnly "inner")
     = Throw (Error "elements is required and cannot be empty").
Proof.
  split; [discriminate|]. split; [simpl; auto|]. split; [discriminate | reflexivity].
Qed.

End DefaultMode.

(** ** Removal of signals *)

Section SignalRemoval.

Lemma assignNull_defineOwn (patch : PlainObject) (key : string) :
  key <> "__proto__" ->
  own (assignNull patch key) = defineOwn key JNull (own patch).
Proof.
  intros N. unfold assignNull, defineOwn.
  destruct (has_key (own patch) key); [reflexivity|].
  apply String.eqb_neq in N. now rewrite N.
Qed.

Lemma assignAll_defineOwn (keys : list string) (patch : PlainObject) :
  ~ In "__proto__" keys ->
  own (assignAll patch keys)
  = fold_left (fun props key => defineOwn key JNull props) keys (own patch).
Proof.
  unfold assignAll.
  revert patch. induction keys as [|key keys IH]; intros patch N; [reflexivity|].
  simpl fold_left. rewrite IH.
  - rewrite assignNull_defineOwn; [reflexivity|].
    intros ->. apply N. now left.
  - intros I. apply N. now right.
Qed.

(** X17.  For keys other than ["__proto__"], [removeSignals] is
    [patchSignals] on the serialized object that maps each key to [null]. *)
Lemma removeSignals_is_null_patch (keys : list string) (options : option Options) :
  ~ In "__proto__" keys ->
  removeSignals (ManyKeys keys) options
  = patchSignals (JSON_stringify (nullPatch keys)) options.
Proof.
  intros N. unfold removeSignals, nullPatch. simpl keysOf.
  now rewrite assignAll_defineOwn.
Qed.

(** The specification's example. *)
Example removeSignals_a_b :
  removeSignals (ManyKeys ["a"; "b"]) None
  = patchSignals
      (Some ("{" +++ DQ +++ "a" +++ DQ +++ ":null," +++ DQ +++ "b" +++ DQ +++ ":null}"))
      None.
Proof. reflexivity. Qed.

(** C8 fails on the code at the key ["__proto__"].  The object that maps it
    to [null] serializes with that key, but the assignment in the loop of
    [removeSignals] sets the prototype of the patch and creates no property,
    so that the patch sent is the empty object. *)
Theorem removeSignals_drops_proto_key :
  JSON_stringify (nullPatch ["__proto__"])
  = Some ("{" +++ DQ +++ "__proto__" +++ DQ +++ ":null}")
  /\ removeSignals (ManyKeys ["__proto__"]) None = patchSignals (Some "{}") None
  /\ removeSignals (ManyKeys ["__proto__"]) None
     = Normal ["event: datastar-patch-signals" +++ LF; "data: signals {}" +++ LF; LF]
  /\ removeSignals (ManyKeys ["__proto__"]) None
     <> patchSignals (JSON_stringify (nullPatch ["__proto__"])) None.
Proof.
  split; [reflexivity|]. split; [reflexivity|]. split; [reflexivity|].
  discriminate.
Qed.

End SignalRemoval.

(** ** Reading signals *)

Section SignalReading.

Variable HOST : option string.
Variable URL_searchParams : string -> Completion (list (string * string)).
Variable JSON_parse : string -> Completion Jsonifiable.

Local Abbreviation read := (readSignals HOST URL_searchParams JSON_parse).
Local Abbreviation submitted := (signalsText HOST URL_searchParams).

Lemma has_get (params : list (string * string)) (name : string) :
  has params name = true <-> exists value, get params name = Some value.
Proof.
  induction params as [|[k v] params IH]; simpl.
  - split; [discriminate | intros [value E]; discriminate].
  - destruct (String.eqb k name); simpl; [|exact IH].
    split; [intros _; now exists v | reflexivity].
Qed.

Lemma has_false_get (params : list (string * string)) (name : string) :
  has params name = false <-> get params name = None.
Proof.
  destruct (get params name) as [value|] eqn:G.
  - split; [|discriminate]. intros H.
    assert (T : has params name = true) by (apply has_get; now exists value).
    congruence.
  - split; [reflexivity|]. intros _.
    destruct (has params name) eqn:H; [|reflexivity].
    apply has_get in H as [value E]. congruence.
Qed.

(** The handler of both [catch] clauses always returns a failure. *)
Lemma onCatch_failure (e : unknown) : exists message, onCatch e = Normal (Failure message).
Proof.
  unfold onCatch.
  destruct (if isRecord e then messageOf e else None) as [[]|]; now eexists.
Qed.

Lemma onCatch_error (name message : string) :
  onCatch (ErrorObject name message) = Normal (Failure message).
Proof. reflexivity. Qed.

(** What [readSignals] returns, by the text submitted and its parse. *)
Lemma readSignals_outcome (request : IncomingMessage) :
  read request
  = (text <- submitted request ;;
     match text with
     | None => Normal (Failure "No datastar object in request")
     | Some text =>
         match JSON_parse text with
         | Normal signals =>
             if isRecord (Value signals) then Normal (Success signals)
             else Normal (Failure (notRecordMessage request))
         | Throw e => onCatch e
         end
     end).
Proof.
  unfold readSignals, signalsText, notRecordMessage.
  destruct (String.eqb (method request) "GET").
  - destruct (URL_searchParams (href HOST request)) as [params|e]; [|reflexivity].
    simpl bind.
    destruct (get params "datastar") as [text|] eqn:G.
    + assert (H : has params "datastar" = true) by (apply has_get; now exists text).
      rewrite H. simpl textOf.
      destruct (JSON_parse text) as [signals|e]; simpl; [|reflexivity].
      destruct (isRecord (Value signals)); reflexivity.
    + apply has_false_get in G. rewrite G. reflexivity.
  - simpl.
    destruct (JSON_parse (bodyOf request)) as [signals|e]; simpl; [|reflexivity].
    destruct (isRecord (Value signals)); reflexivity.
Qed.

Lemma isRecord_cases (v : Jsonifiable) :
  isRecord (Value v) = match v with JArray _ | JObject _ => true | _ => false end.
Proof. destruct v; reflexivity. Qed.

(** C2 fails on the code for arrays.  When the text submitted, in the query
    parameter or in the body, parses to a JSON array, [readSignals] returns
    the success variant with the array as the signals: [isRecord] asks only
    for a non-null value of type "object". *)
Theorem readSignals_accepts_arrays (request : IncomingMessage) (text : string)
    (items : list Jsonifiable) :
  submitted request = Normal (Some text) ->
  JSON_parse text = Normal (JArray items) ->
  read request = Normal (Success (JArray items)).
Proof.
  intros S P. rewrite readSignals_outcome, S. simpl. now rewrite P.
Qed.

(** X19, the part of C2 that holds: scalars are rejected, objects accepted,
    and nothing is accepted but what was parsed. *)
Lemma readSignals_by_shape (request : IncomingMessage) (text : string)
    (signals : Jsonifiable) :
  submitted request = Normal (Some text) ->
  JSON_parse text = Normal signals ->
  (scalar signals = true ->
   read request = Normal (Failure (notRecordMessage request)))
  /\ (forall props, signals = JObject props ->
      read request = Normal (Success signals))
  /\ (forall accepted, read request = Normal (Success accepted) ->
      accepted = signals /\ scalar signals = false).
Proof.
  intros S P. rewrite readSignals_outcome, S. simpl. rewrite P, isRecord_cases.
  split; [|split].
  - destruct signals; simpl; intros H; try reflexivity; discriminate.
  - intros props ->. reflexivity.
  - intros accepted. destruct signals; intros [= <-]; auto.
Qed.

(** C5 fails on the code for a GET request whose target does not make a
    valid URL.  The URL is constructed before the [try] block of the GET
    path, so the [TypeError] of the constructor is not caught: the promise
    of [readSignals] rejects with it. *)
Theorem readSignals_throws_on_invalid_url (request : IncomingMessage) (e : unknown) :
  method request = "GET" ->
  URL_searchParams (href HOST request) = Throw e ->
  read request = Throw e.
Proof.
  intros M U. unfold readSignals. now rewrite M, U.
Qed.

(** X18, the part of C5 that holds.  Once the text submitted is at hand, which
    it is for every request other than GET and for every GET request whose
    URL is valid, [readSignals] returns one of the two variants, whatever
    the parser does: a GET request without the [datastar] parameter, a text
    on which [JSON.parse] throws (as on a missing body or on malformed JSON),
    and a text that parses to a scalar each yield the failure variant. *)
Lemma readSignals_returns_a_variant (request : IncomingMessage) (text : option string) :
  submitted request = Normal text ->
  (exists result, read request = Normal result)
  /\ (text = None ->
      read request = Normal (Failure "No datastar object in request"))
  /\ (forall json e, text = Some json -> JSON_parse json = Throw e ->
      exists message, read request = Normal (Failure message))
  /\ (forall json name message,
      text = Some json ->
      JSON_parse json = Throw (ErrorObject name message) ->
      read request = Normal (Failure message))
  /\ (forall json signals,
      text = Some json -> JSON_parse json = Normal signals ->
      scalar signals = true ->
      read request = Normal (Failure (notRecordMessage request))).
Proof.
  intros S. rewrite readSignals_outcome, S. simpl bind.
  split; [|split; [|split; [|split]]].
  - destruct text as [json|]; [|now eexists].
    destruct (JSON_parse json) as [signals|e].
    + destruct (isRecord (Value signals)); now eexists.
    + destruct (onCatch_failure e) as [message E]. rewrite E. now eexists.
  - intros ->. reflexivity.
  - intros json e -> ->. apply onCatch_failure.
  - intros json name message -> ->. reflexivity.
  - intros json signals -> -> Sc. rewrite isRecord_cases.
    destruct signals; try reflexivity; discriminate.
Qed.

Lemma submitted_body (request : IncomingMessage) :
  method request <> "GET" -> submitted request = Normal (Some (bodyOf request)).
Proof.
  intros N. unfold signalsText. apply String.eqb_neq in N. now rewrite N.
Qed.

End SignalReading.

(** The request [POST /merge] whose body arrives as the chunks ["[1,"] and
    ["2]"] is answered with success. *)
Lemma readSignals_accepts_arrays_witness :
  readSignals None (sampleURL "[1,2]") sampleParse (postRequest ["[1,"; "2]"])
  = Normal (Success (JArray [JNumber (integer 1); JNumber (integer 2)])).
Proof.
  apply (readSignals_accepts_arrays None (sampleURL "[1,2]") sampleParse
           (postRequest ["[1,"; "2]"]) "[1,2]" [JNumber (integer 1); JNumber (integer 2)]);
    reflexivity.
Defined.

(** The request [GET *:x], whose href is [http://localhost*:x]. *)
Lemma readSignals_throws_on_invalid_url_witness :
  readSignals None (sampleURL "") sampleParse (getRequest "*:x")
  = Throw (ErrorObject "TypeError" "Invalid URL").
Proof.
  apply (readSignals_throws_on_invalid_url None (sampleURL "") sampleParse
           (getRequest "*:x") (ErrorObject "TypeError" "Invalid URL"));
    reflexivity.
Defined.

Example readSignals_throws_on_invalid_host :
  readSignals (Some "::") (sampleURL "{}") sampleParse (getRequest "/merge?datastar=%7B%7D")
  = Throw (ErrorObject "TypeError" "Invalid URL").
Proof. reflexivity. Qed.

Example readSignals_get_array :
  readSignals None (sampleURL "[1,2]") sampleParse
    (getRequest "/merge?datastar=%5B1%2C2%5D")
  = Normal (Success (JArray [JNumber (integer 1); JNumber (integer 2)])).
Proof. reflexivity. Qed.

Example readSignals_failures :
  readSignals None (sampleURL "") sampleParse (getRequest "/other")
  = Normal (Failure "No datastar object in request")
  /\ readSignals None (sampleURL "") sampleParse (postRequest [])
     = Normal (Failure "Unexpected token in JSON: ")
  /\ readSignals None (sampleURL "") sampleParse (postRequest ["not json"])
     = Normal (Failure "Unexpected token in JSON: not json")
  /\ readSignals None (sampleURL "") sampleParse (postRequest ["42"])
     = Normal (Failure "Parsed JSON body is not of type record")
  /\ readSignals None (sampleURL "null") sampleParse
       (getRequest "/merge?datastar=null")
     = Normal (Failure "Datastar param is not a record").
Proof. repeat split. Qed.

(* ================================================================= *)
(** * Further properties of the code *)

(** ** Frames *)

Section FrameShape.

Lemma append_empty_r (s : string) : s +++ "" = s.
Proof. induction s as [|c s IH]; simpl; [reflexivity | now rewrite IH]. Qed.

Lemma join_empty_cons (x : string) (xs : list string) :
  join "" (x :: xs) = x +++ join "" xs.
Proof. unfold join. destruct xs; simpl; [now rewrite append_empty_r | reflexivity]. Qed.

Lemma join_empty_app (xs ys : list string) :
  join "" (xs ++ ys) = join "" xs +++ join "" ys.
Proof.
  induction xs as [|x xs IH]; [reflexivity|].
  rewrite <- app_comm_cons, !join_empty_cons, IH. now rewrite append_assoc.
Qed.

Lemma occurs_append (c : ascii) (a b : string) :
  occurs c (a +++ b) = occurs c a || occurs c b.
Proof.
  induction a as [|x a IH]; simpl; [reflexivity|].
  rewrite IH. now rewrite orb_assoc.
Qed.

(** The text of lines that each end with a line feed ends with one. *)
Lemma join_lines_end (xs : list string) :
  xs <> [] ->
  Forall (endsWith LF) xs ->
  endsWith LF (join "" xs).
Proof.
  induction xs as [|x xs IH]; [congruence|]. intros _ F.
  inversion F as [|? ? [before ->] F']; subst.
  rewrite join_empty_cons. destruct xs as [|y ys].
  - exists before. simpl. now rewrite append_empty_r.
  - destruct IH as [rest E]; [discriminate | assumption|].
    rewrite E. exists ((before +++ LF) +++ rest). now rewrite !append_assoc.
Qed.

Lemma frame_head_lines (event : EventType) (dataLines : list string)
    (options : DatastarEventOptions) :
  exists head,
    send event dataLines options = head ++ [LF]
    /\ head <> []
    /\ Forall (endsWith LF) head
    /\ exists more, head = ("event: " +++ EventType_name event +++ LF) :: more.
Proof.
  unfold send. cbv zeta.
  set (idLine := match eventId options with
                 | Some id => if String.eqb id "" then [] else ["id: " +++ id +++ LF]
                 | None => []
                 end).
  set (retryLine := if falsyNumber (retryDuration options)
                        || isNumber (retryDuration options) (integer 1000)
                    then [] else _).
  exists (["event: " +++ EventType_name event +++ LF] ++ idLine ++ retryLine
          ++ map (fun data => "data: " +++ data +++ LF) dataLines).
  split; [now rewrite <- !app_assoc|]. split; [discriminate|]. split.
  - repeat rewrite Forall_app. repeat split.
    + constructor; [|constructor]. exists ("event: " +++ EventType_name event).
      now rewrite append_assoc.
    + unfold idLine. destruct (eventId options) as [id|]; [|constructor].
      destruct (String.eqb id ""); constructor; [|constructor].
      exists ("id: " +++ id). now rewrite append_assoc.
    + unfold retryLine.
      destruct (falsyNumber (retryDuration options) || isNumber (retryDuration options) (integer 1000));
        constructor; [|constructor].
      eexists. rewrite append_assoc. reflexivity.
    + apply Forall_forall. intros line I. apply in_map_iff in I as [data [<- _]].
      exists ("data: " +++ data). now rewrite append_assoc.
  - eexists. reflexivity.
Qed.

(** The text of a frame ends with a blank line. *)
Lemma frame_text_end (event : EventType) (dataLines : list string)
    (options : DatastarEventOptions) :
  endsWith (LF +++ LF) (join "" (send event dataLines options)).
Proof.
  destruct (frame_head_lines event dataLines options) as [head [E [N [F _]]]].
  rewrite E, join_empty_app.
  destruct (join_lines_end head N F) as [before B]. rewrite B.
  exists before. now rewrite append_assoc.
Qed.

(** X1.  Whatever the event, the data lines and the options, the frame that
    [send] returns begins with the [event:] line, and its text, the lines
    joined as the Node adapter writes them, ends with a blank line: two line
    feeds. *)
Theorem send_ends_with_blank_line (event : EventType) (dataLines : list string)
    (options : DatastarEventOptions) :
  (exists more,
      send event dataLines options = ("event: " +++ EventType_name event +++ LF) :: more)
  /\ endsWith (LF +++ LF) (join "" (send event dataLines options)).
Proof.
  destruct (frame_head_lines event dataLines options) as [head [E [N [F [more M]]]]].
  split.
  - exists (more ++ [LF]). rewrite E, M. reflexivity.
  - apply frame_text_end.
Qed.

Lemma uint_no_line_feed (d : Decimal.uint) :
  occurs LF_char (NilEmpty.string_of_uint d) = false.
Proof. induction d; simpl; auto. Qed.

Lemma Number_toString_no_line_feed (n : Number) :
  occurs LF_char (Number_toString n) = false.
Proof.
  destruct n as [|negative|z safe]; [reflexivity | now destruct negative|].
  unfold Number_toString. destruct (Z.to_int z) as [d|d]; simpl;
    destruct d; simpl; auto using uint_no_line_feed.
Qed.

Lemma wellFramed_intro (content : string) :
  occurs LF_char content = false -> wellFramed (content +++ LF).
Proof. intros O. now exists content. Qed.

(** A frame is well framed when its event id and its data lines hold no
    line feed. *)
Lemma send_well_framed (event : EventType) (dataLines : list string)
    (options : DatastarEventOptions) :
  (forall id, eventId options = Some id -> occurs LF_char id = false) ->
  Forall (fun data => occurs LF_char data = false) dataLines ->
  Forall wellFramed (send event dataLines options).
Proof.
  intros I D. unfold send. repeat rewrite Forall_app. repeat split.
  - constructor; [|constructor].
    rewrite <- append_assoc. apply wellFramed_intro. now destruct event.
  - destruct (eventId options) as [id|]; [|constructor].
    destruct (String.eqb id ""); constructor; [|constructor].
    rewrite <- append_assoc. apply wellFramed_intro.
    rewrite occurs_append. now rewrite (I id eq_refl).
  - destruct (falsyNumber (retryDuration options) || isNumber (retryDuration options) (integer 1000));
      constructor; [|constructor].
    rewrite <- append_assoc. apply wellFramed_intro.
    rewrite occurs_append. now rewrite Number_toString_no_line_feed.
  - apply Forall_forall. intros line L. apply in_map_iff in L as [data [<- L]].
    rewrite <- append_assoc. apply wellFramed_intro.
    rewrite Forall_forall in D. rewrite occurs_append. now rewrite (D data L).
  - constructor; [|constructor]. now exists "".
Qed.

Lemma eachNewlineIsADataLine_no_line_feed (prefix data : string) :
  occurs LF_char prefix = false ->
  Forall (fun line => occurs LF_char line = false) (eachNewlineIsADataLine prefix data).
Proof.
  intros P. unfold eachNewlineIsADataLine. apply Forall_forall. intros line I.
  apply in_map_iff in I as [piece [<- I]].
  pose proof (split_pieces LF_char data) as S. rewrite Forall_forall in S.
  rewrite !occurs_append, P, (S piece I). reflexivity.
Qed.

Lemma eachOptionIsADataLine_no_line_feed (props : Object) (lines : list string) :
  (forall key, In key (Object_keys props) -> occurs LF_char key = false) ->
  eachOptionIsADataLine props = Normal lines ->
  Forall (fun line => occurs LF_char line = false) lines.
Proof.
  intros K E. apply Forall_forall. intros line I. unfold eachOptionIsADataLine in E.
  destruct (flatMap_lines _ _ _ E line I) as [key [produced [Ik [F Ip]]]].
  apply filter_In in Ik as [Ik _].
  destruct (toString "options[key]" (Get props key)) as [text|e];
    simpl in F; [|discriminate].
  injection F as <-.
  pose proof (eachNewlineIsADataLine_no_line_feed key text (K key Ik)) as N.
  rewrite Forall_forall in N. now apply N.
Qed.

End FrameShape.

(** ** What the patch operations return *)

Section PatchOutcomes.

(** A successful [patchElements] returns a frame of the option lines,
    followed by the lines of the elements or by nothing. *)
Lemma patchElements_is_frame (elements : option string) (options : option Options)
    (lines : list string) :
  patchElements elements options = Normal lines ->
  exists optionLines payload,
    eachOptionIsADataLine (rest (orEmpty options)) = Normal optionLines
    /\ (payload = []
        \/ exists html, elements = Some html
                        /\ payload = eachNewlineIsADataLine DatastarDatalineElements html)
    /\ lines = send datastar_patch_elements (optionLines ++ payload)
                    (event (orEmpty options)).
Proof.
  unfold patchElements. cbv zeta.
  set (props := rest (orEmpty options)).
  destruct (if ToBoolean (Get props DatastarDatalinePatchMode)
            then validateElementPatchMode (Get props DatastarDatalinePatchMode)
            else Normal tt) as [[]|e]; simpl bind at 1; [|discriminate].
  destruct (if negb (ToBoolean (isRemoveWithSelector props))
            then validateRequired elements "elements" else Normal tt) as [[]|e];
    simpl bind at 1; [|discriminate].
  destruct (if negb (ToBoolean (Get props DatastarDatalineSelector))
               && strict_equals (Get props DatastarDatalinePatchMode) (JString "remove")
            then if missing elements then Throw _ else Normal tt
            else Normal tt) as [[]|e]; simpl bind at 1; [|discriminate].
  destruct (eachOptionIsADataLine props) as [optionLines|e]; simpl bind at 1; [|discriminate].
  destruct (if negb (ToBoolean (isRemoveWithSelector props)) then Normal true
            else bind (trimOf elements) (fun trimmed => Normal (negb (String.eqb trimmed ""))))
    as [[|]|e]; simpl bind at 1; [| |discriminate].
  - destruct elements as [html|]; simpl; [|discriminate].
    intros [= <-]. exists optionLines, (eachNewlineIsADataLine DatastarDatalineElements html).
    split; [reflexivity|]. split; [right; now exists html | reflexivity].
  - simpl. intros [= <-]. exists optionLines, [].
    split; [reflexivity|]. split; [now left | now rewrite app_nil_r].
Qed.

(** What [patchSignals] returns: the required-parameter error for missing
    signals; otherwise the error of the option lines, if they fail; and
    otherwise the frame of the option lines and the lines of the signals. *)
Lemma patchSignals_outcome (signals : option string) (options : option Options) :
  patchSignals signals options
  = if missing signals
    then Throw (Error "signals is required and cannot be empty")
    else optionLines <- eachOptionIsADataLine (rest (orEmpty options)) ;;
         Normal (send datastar_patch_signals
                   (optionLines
                    ++ eachNewlineIsADataLine DatastarDatalineSignals
                         match signals with Some json => json | None => "" end)
                   (event (orEmpty options))).
Proof.
  unfold patchSignals, validateRequired.
  destruct (missing signals) eqn:M; [reflexivity|].
  destruct signals as [json|]; [|discriminate M]. simpl.
  destruct (eachOptionIsADataLine (rest (orEmpty options))); reflexivity.
Qed.

(** X2.  Payload text cannot break the framing.  When the event id and the
    option keys hold no line feed, every line of an event returned by
    [patchElements] or by [patchSignals] ends with a line feed and holds no
    other, whatever the elements, the signals and the option values are. *)
Theorem patches_are_well_framed (o : Options) :
  (forall id, eventId (event o) = Some id -> occurs LF_char id = false) ->
  (forall key, In key (Object_keys (rest o)) -> occurs LF_char key = false) ->
  (forall elements lines,
      patchElements elements (Some o) = Normal lines -> Forall wellFramed lines)
  /\ (forall signals lines,
      patchSignals signals (Some o) = Normal lines -> Forall wellFramed lines).
Proof.
  intros I K. split.
  - intros elements lines E.
    apply patchElements_is_frame in E as [optionLines [payload [O [P ->]]]].
    simpl orEmpty in *. apply send_well_framed; [exact I|].
    apply Forall_app. split.
    + now apply eachOptionIsADataLine_no_line_feed with (props := rest o).
    + destruct P as [-> | [html [_ ->]]]; [constructor|].
      now apply eachNewlineIsADataLine_no_line_feed.
  - intros signals lines E. rewrite patchSignals_outcome in E.
    destruct (missing signals); [discriminate|]. simpl orEmpty in E.
    destruct (eachOptionIsADataLine (rest o)) as [optionLines|e] eqn:O;
      simpl in E; [|discriminate].
    injection E as <-. apply send_well_framed; [exact I|].
    apply Forall_app. split.
    + now apply eachOptionIsADataLine_no_line_feed with (props := rest o).
    + now apply eachNewlineIsADataLine_no_line_feed.
Qed.

Lemma patches_are_well_framed_witness :
  exists lines,
    patchElements (Some ("<p>" +++ LF +++ "</p>")) (modeOnly "inner") = Normal lines
    /\ Forall wellFramed lines.
Proof.
  eexists. split; [reflexivity|].
  destruct (patches_are_well_framed
              {| event := noEventOptions;
                 rest := [(DatastarDatalinePatchMode, JString "inner")] |}) as [P _].
  - intros id E. discriminate E.
  - intros key [<- | []]. reflexivity.
  - apply (P (Some ("<p>" +++ LF +++ "</p>"))). reflexivity.
Defined.

(** X3.  The errors of [patchElements] are these five and no other: the
    invalid-mode error; the required-parameter error for the elements; the
    [TypeError] of a property read on a missing value ([toString] of an
    option that holds [undefined] or [null], [trim] of absent elements); the
    [TypeError] of calling the [toString] of an option that is an object
    with an own property of that name; and the [TypeError] of converting to
    a text a mode, or an item of an option that is an array, that is such an
    object. *)
Theorem patchElements_errors (elements : option string) (options : option Options)
    (e : unknown) :
  patchElements elements options = Throw e ->
  (exists mode, e = Error (InvalidModeMessage mode))
  \/ e = Error "elements is required and cannot be empty"
  \/ (exists what property, e = TypeError what property)
  \/ e = NotAFunction "options[key].toString"
  \/ e = NotPrimitive.
Proof.
  assert (Conversion : forall e',
             ConversionError "options[key]" e' ->
             (exists what property, e' = TypeError what property)
             \/ e' = NotAFunction "options[key].toString"
             \/ e' = NotPrimitive).
  { intros e' [[what ->] | [-> | ->]]; [left; now exists what, "toString" | auto | auto]. }
  assert (OptionError : forall props (k : list string -> Completion (list string)) e',
             (optionLines <- eachOptionIsADataLine props ;; k optionLines) = Throw e' ->
             ConversionError "options[key]" e'
             \/ exists optionLines, k optionLines = Throw e').
  { intros props k e' E.
    destruct (eachOptionIsADataLine props) as [optionLines|e''] eqn:O; simpl in E.
    - right. now exists optionLines.
    - injection E as ->. apply eachOptionIsADataLine_throws in O as [C _]. now left. }
  assert (Accepted : forall o, modeAccepted (rest o) ->
             patchElements elements (Some o) = Throw e ->
             e = Error "elements is required and cannot be empty"
             \/ (exists what property, e = TypeError what property)
             \/ e = NotAFunction "options[key].toString"
             \/ e = NotPrimitive).
  { intros o A E.
    destruct (ToBoolean (isRemoveWithSelector (rest o))) eqn:R.
    - destruct elements as [html|].
      + rewrite patchElements_remove_with_selector in E by exact R.
        apply OptionError in E as [C | [optionLines E]]; [right; auto | discriminate].
      + rewrite patchElements_remove_with_selector_absent in E by exact R.
        apply OptionError in E as [C | [optionLines E]]; [right; auto|].
        injection E as <-. right. left. now exists "undefined", "trim".
    - destruct (missing elements) eqn:M.
      + rewrite patchElements_required in E by assumption. injection E as <-. now left.
      + destruct elements as [html|]; [|discriminate M].
        rewrite missing_blank in M.
        rewrite patchElements_payload in E by assumption.
        apply OptionError in E as [C | [optionLines E]]; [right; auto | discriminate]. }
  assert (Some_case : forall o, patchElements elements (Some o) = Throw e ->
             (exists mode, e = Error (InvalidModeMessage mode))
             \/ e = Error "elements is required and cannot be empty"
             \/ (exists what property, e = TypeError what property)
             \/ e = NotAFunction "options[key].toString"
             \/ e = NotPrimitive).
  { intros o E.
    destruct (ToBoolean (Get (rest o) DatastarDatalinePatchMode)) eqn:TB.
    - destruct (includes ElementPatchModes (Get (rest o) DatastarDatalinePatchMode)) eqn:I.
      + right. apply (Accepted o); [intros _; exact I | exact E].
      + rewrite patchElements_invalid_mode in E by assumption.
        destruct (invalid_mode_throws (Get (rest o) DatastarDatalinePatchMode))
          as [e' [E' C]].
        rewrite E' in E. injection E as ->.
        destruct C as [C | ->]; [now left | auto 6].
    - right. apply (Accepted o); [|exact E].
      intros B. rewrite TB in B. discriminate. }
  destruct options as [o|]; [apply Some_case|].
  rewrite patchElements_no_options. apply Some_case.
Qed.

Lemma patchElements_errors_witness :
  (exists mode, NotPrimitive = Error (InvalidModeMessage mode))
  \/ NotPrimitive = Error "elements is required and cannot be empty"
  \/ (exists what property, NotPrimitive = TypeError what property)
  \/ NotPrimitive = NotAFunction "options[key].toString"
  \/ NotPrimitive = NotPrimitive.
Proof.
  apply (patchElements_errors (Some "x")
           (bag noEventOptions
              [(DatastarDatalinePatchMode, JObject [("toString", JString "t")])])).
  reflexivity.
Defined.

(** The five errors at work. *)
Example patchElements_five_errors :
  patchElements (Some "x") (modeOnly "bogus") = Throw (Error (InvalidModeMessage "bogus"))
  /\ patchElements (Some " ") None
     = Throw (Error "elements is required and cannot be empty")
  /\ patchElements (Some "x") (bag noEventOptions [("foo", JNull)])
     = Throw (TypeError "null" "toString")
  /\ patchElements (Some "x")
       (bag noEventOptions [("foo", JObject [("toString", JString "t")])])
     = Throw (NotAFunction "options[key].toString")
  /\ patchElements (Some "x")
       (bag noEventOptions [("foo", JArray [JObject [("toString", JString "t")]])])
     = Throw NotPrimitive
  /\ patchElements (Some "x")
       (bag noEventOptions
          [(DatastarDatalinePatchMode, JObject [("toString", JString "t")])])
     = Throw NotPrimitive.
Proof. repeat split. Qed.

End PatchOutcomes.

(** ** Option lines: failure and elision *)

Section OptionOutcomes.

Lemma flatMap_each (f : string -> Completion (list string)) (keys : list string)
    (lines : list string) :
  flatMap f keys = Normal lines ->
  forall key, In key keys -> exists produced, f key = Normal produced.
Proof.
  revert lines. induction keys as [|k keys IH]; simpl; intros lines E key I; [destruct I|].
  destruct (f k) as [produced|e] eqn:F; simpl in E; [|discriminate].
  destruct (flatMap f keys) as [more|e] eqn:M; simpl in E; [|discriminate].
  destruct I as [<- | I]; [now exists produced | now apply (IH more)].
Qed.

Lemma flatMap_ext_in (f g : string -> Completion (list string)) (keys : list string) :
  (forall key, In key keys -> f key = g key) -> flatMap f keys = flatMap g keys.
Proof.
  induction keys as [|k keys IH]; intros H; [reflexivity|]. simpl.
  rewrite (H k) by now left. rewrite IH; [reflexivity|].
  intros key I. apply H. now right.
Qed.

(** X4.  The option lines are produced exactly when every option that is
    emitted, every one that does not hold its default, holds a value that
    has a text: a boolean, a number, a string, an object without an own
    property [toString], or an array whose items convert.  They fail only
    on an emitted option without a text, with the [TypeError] of reading
    [toString] of [undefined] or [null], of calling a [toString] that is no
    function, or of converting an item of an array. *)
Theorem option_lines_fail_without_text (props : Object) :
  ((exists lines, eachOptionIsADataLine props = Normal lines)
   <-> (forall key, In key (Object_keys props) ->
        hasDefaultValue key (Get props key) = false ->
        hasText (Get props key) = true))
  /\ (forall e, eachOptionIsADataLine props = Throw e ->
      ((exists what, e = TypeError what "toString")
       \/ e = NotAFunction "options[key].toString"
       \/ e = NotPrimitive)
      /\ exists key, In key (Object_keys props)
                     /\ hasDefaultValue key (Get props key) = false
                     /\ hasText (Get props key) = false).
Proof.
  split; [|intros e; apply eachOptionIsADataLine_throws].
  unfold eachOptionIsADataLine. split.
  - intros [lines E] key I D.
    destruct (flatMap_each _ _ _ E key) as [produced P].
    + apply filter_In. split; [exact I | now rewrite D].
    + pose proof (toString_outcome "options[key]" (Get props key)) as T.
      destruct (toString "options[key]" (Get props key)); [exact T | discriminate P].
  - intros H. apply flatMap_total. intros key I.
    apply filter_In in I as [I D]. apply negb_true_iff in D.
    destruct (toString_hasText "options[key]" _ (H key I D)) as [text ->].
    simpl. now eexists.
Qed.

(** Values with and without a text, as options. *)
Example option_lines_by_value :
  eachOptionIsADataLine
    [("a", JNumber (integer 7)); ("b", JNumber NaN); ("c", JBoolean true);
     ("d", JObject [("x", JNull)]);
     ("e", JArray [JNull; JString "s"; JArray [JNumber (integer 1); JUndefined]])]
  = Normal ["a 7"; "b NaN"; "c true"; "d [object Object]"; "e ,s,1,"]
  /\ eachOptionIsADataLine [("foo", JObject [("toString", JString "t")])]
     = Throw (NotAFunction "options[key].toString")
  /\ eachOptionIsADataLine [("foo", JArray [JObject [("toString", JNull)]])]
     = Throw NotPrimitive
  /\ eachOptionIsADataLine [("foo", JUndefined)]
     = Throw (TypeError "undefined" "toString").
Proof. repeat split. Qed.

Lemma Get_NoDup (props : Object) (key : string) (v : Jsonifiable) :
  NoDup (Object_keys props) -> In (key, v) props -> Get props key = v.
Proof.
  induction props as [|[k w] props IH]; simpl; intros N I; [destruct I|].
  inversion N as [|? ? Nk N']; subst.
  destruct I as [[= -> ->] | I].
  - now rewrite String.eqb_refl.
  - destruct (String.eqb_spec k key) as [->|D]; [|now apply IH].
    exfalso. apply Nk. apply in_map_iff. now exists (key, v).
Qed.

Lemma emitted_incl (props : Object) (p : string * Jsonifiable) :
  In p (emitted props) -> In p props /\ hasDefaultValue (fst p) (snd p) = false.
Proof.
  unfold emitted. intros I. apply filter_In in I as [I D].
  split; [exact I | now apply negb_true_iff].
Qed.

Lemma emitted_NoDup (props : Object) :
  NoDup (Object_keys props) -> NoDup (Object_keys (emitted props)).
Proof.
  unfold Object_keys, emitted.
  induction props as [|[k v] props IH]; simpl; intros N; [constructor|].
  inversion N as [|? ? Nk N']; subst.
  destruct (negb (hasDefaultValue k v)); simpl; [|now apply IH].
  constructor; [|now apply IH].
  intros I. apply Nk. apply in_map_iff in I as [p [E I]].
  apply filter_In in I as [I _]. apply in_map_iff. now exists p.
Qed.

Lemma emitted_keys (props : Object) :
  NoDup (Object_keys props) ->
  Object_keys (emitted props)
  = filter (fun key => negb (hasDefaultValue key (Get props key))) (Object_keys props).
Proof.
  unfold Object_keys, emitted.
  induction props as [|[k v] props IH]; intros N; [reflexivity|].
  inversion N as [|? ? Nk N']; subst.
  simpl. rewrite String.eqb_refl.
  assert (E : filter (fun key => negb (hasDefaultValue key
                                     (if String.eqb k key then v else Get props key)))
                     (map fst props)
              = filter (fun key => negb (hasDefaultValue key (Get props key)))
                       (map fst props)).
  { apply filter_ext_in. intros key I.
    destruct (String.eqb_spec k key) as [->|D]; [contradiction | reflexivity]. }
  rewrite E. destruct (negb (hasDefaultValue k v)); simpl; now rewrite IH.
Qed.

(** X5.  Options that hold their default are elided: for a bag without
    repeated keys, the option lines, and so the outcome of [patchSignals],
    are those of the bag with these options left out. *)
Theorem default_options_are_elided (props : Object) :
  NoDup (Object_keys props) ->
  eachOptionIsADataLine props = eachOptionIsADataLine (emitted props)
  /\ (forall signals ev,
      patchSignals signals (bag ev props) = patchSignals signals (bag ev (emitted props))).
Proof.
  intros N.
  assert (G : forall key, In key (Object_keys (emitted props)) ->
                          Get (emitted props) key = Get props key
                          /\ hasDefaultValue key (Get props key) = false).
  { intros key I. apply in_map_iff in I as [[k v] [E I]]. simpl in E. subst k.
    pose proof (emitted_incl _ _ I) as [Ip D]. simpl in D.
    rewrite (Get_NoDup _ _ _ (emitted_NoDup _ N) I), (Get_NoDup _ _ _ N Ip). auto. }
  assert (E : eachOptionIsADataLine props = eachOptionIsADataLine (emitted props)).
  { unfold eachOptionIsADataLine at 1 2.
    rewrite <- (emitted_keys props N).
    assert (F : filter (fun key => negb (hasDefaultValue key (Get (emitted props) key)))
                       (Object_keys (emitted props))
                = Object_keys (emitted props)).
    { apply forallb_filter_id. apply forallb_forall. intros key I.
      destruct (G key I) as [-> ->]. reflexivity. }
    rewrite F. apply flatMap_ext_in. intros key I.
    destruct (G key I) as [-> _]. reflexivity. }
  split; [exact E|].
  intros signals ev. unfold bag. rewrite !patchSignals_outcome. simpl. now rewrite E.
Qed.

Lemma default_options_are_elided_witness :
  patchSignals (Some "{}")
    (bag noEventOptions [(DatastarDatalineOnlyIfMissing, JBoolean false)])
  = patchSignals (Some "{}") (bag noEventOptions []).
Proof.
  apply (proj2 (default_options_are_elided
                  [(DatastarDatalineOnlyIfMissing, JBoolean false)]
                  ltac:(repeat constructor; simpl; tauto))).
Defined.

End OptionOutcomes.

(** ** [removeElements] *)

Section ElementRemoval.

Lemma absentOrEmpty_selector (sel : string) :
  sel <> "" -> absentOrEmpty (Some sel) = false.
Proof. intros N. simpl. now apply String.eqb_neq. Qed.

(** X6.  With a selector that is not empty, [removeElements] succeeds
    whatever the elements are: its event holds the lines of the selector,
    the line of the mode "remove", and then the lines of the elements when
    these hold a character other than white space. *)
Theorem removeElements_by_selector (sel : string) (elements : option string)
    (options : option DatastarEventOptions) :
  sel <> "" ->
  removeElements (Some sel) elements options
  = Normal (send datastar_patch_elements
              (eachNewlineIsADataLine DatastarDatalineSelector sel
               ++ ["mode remove"]
               ++ match elements with
                  | Some html =>
                      if blank html then []
                      else eachNewlineIsADataLine DatastarDatalineElements html
                  | None => []
                  end)
              (optionalEvent options)).
Proof.
  intros N. unfold removeElements.
  rewrite (absentOrEmpty_selector sel N). simpl andb. cbv iota.
  rewrite patchElements_remove_with_selector.
  - simpl rest. simpl event.
    assert (O : eachOptionIsADataLine
                  [(DatastarDatalineSelector, ofOptionalString (Some sel));
                   (DatastarDatalinePatchMode, JString "remove")]
                = Normal (eachNewlineIsADataLine DatastarDatalineSelector sel
                          ++ ["mode remove"])).
    { unfold eachOptionIsADataLine. simpl. reflexivity. }
    simpl ofOptionalString in O. rewrite O. simpl bind. rewrite app_assoc.
    destruct elements as [html|]; [|now rewrite app_nil_r].
    destruct (blank html); [now rewrite app_nil_r | reflexivity].
  - apply isRemoveWithSelector_true. split; [reflexivity|].
    simpl. apply String.eqb_neq in N. now rewrite N.
Qed.

Lemma removeElements_by_selector_witness :
  removeElements (Some "#feed") (Some "<p id=a></p>") None
  = Normal ["event: datastar-patch-elements" +++ LF; "data: selector #feed" +++ LF;
            "data: mode remove" +++ LF; "data: elements <p id=a></p>" +++ LF; LF].
Proof.
  rewrite (removeElements_by_selector "#feed" (Some "<p id=a></p>") None);
    [reflexivity | discriminate].
Defined.

(** X7.  Without a selector, elements that hold a character other than
    white space do not make [removeElements] succeed: the options bag it
    builds holds the selector as [undefined], and the call fails with the
    [TypeError] of the option lines.  With the empty string for selector
    the call succeeds and emits the empty selector as an option line. *)
Theorem removeElements_by_elements (html : string)
    (options : option DatastarEventOptions) :
  blank html = false ->
  removeElements None (Some html) options = Throw (TypeError "undefined" "toString")
  /\ removeElements (Some "") (Some html) options
     = Normal (send datastar_patch_elements
                 (["selector "; "mode remove"]
                  ++ eachNewlineIsADataLine DatastarDatalineElements html)
                 (optionalEvent options)).
Proof.
  intros B. unfold removeElements. simpl absentOrEmpty.
  rewrite missing_blank, B. simpl andb. cbv iota.
  split.
  - rewrite patchElements_payload; [reflexivity | intros _; reflexivity | reflexivity | exact B].
  - rewrite patchElements_payload; [reflexivity | intros _; reflexivity | reflexivity | exact B].
Qed.

Lemma removeElements_by_elements_witness :
  removeElements None (Some "<p id=a></p>") None = Throw (TypeError "undefined" "toString")
  /\ removeElements (Some "") (Some "<p id=a></p>") None
     = Normal (send datastar_patch_elements
                 (["selector "; "mode remove"]
                  ++ eachNewlineIsADataLine DatastarDatalineElements "<p id=a></p>")
                 (optionalEvent None)).
Proof.
  apply (removeElements_by_elements "<p id=a></p>" None). reflexivity.
Defined.

End ElementRemoval.

(** ** [removeSignals] *)

Section SignalPatch.

Lemma quoteChar_no_line_feed (c : ascii) : occurs LF_char (quoteChar c) = false.
Proof. destruct c as [[] [] [] [] [] [] [] []]; reflexivity. Qed.

Lemma QuoteJSONString_no_line_feed (s : string) :
  occurs LF_char (QuoteJSONString s) = false.
Proof.
  unfold QuoteJSONString. rewrite !occurs_append.
  assert (Q : occurs LF_char (quoteChars s) = false).
  { induction s as [|c s IH]; [reflexivity|]. simpl.
    now rewrite occurs_append, quoteChar_no_line_feed, IH. }
  now rewrite Q.
Qed.

Lemma join_no_line_feed (sep : string) (xs : list string) :
  occurs LF_char sep = false ->
  Forall (fun x => occurs LF_char x = false) xs ->
  occurs LF_char (join sep xs) = false.
Proof.
  intros S. unfold join. induction xs as [|x xs IH]; intros F; [reflexivity|].
  inversion F as [|? ? Hx F']; subst. destruct xs as [|y ys]; [exact Hx|].
  change (String.concat sep (x :: y :: ys)) with (x +++ sep +++ String.concat sep (y :: ys)).
  now rewrite !occurs_append, Hx, S, (IH F').
Qed.

(** An object of [null]s serializes to one line of text that begins with a
    brace. *)
Lemma stringify_nulls (props : Object) :
  allNull props ->
  exists text,
    JSON_stringify (JObject props) = Some ("{" +++ text +++ "}")
    /\ occurs LF_char text = false.
Proof.
  intros A.
  exists (join "," (map (fun p => QuoteJSONString (fst p) +++ ":null") props)).
  split.
  - change (JSON_stringify (JObject props))
      with (Some ("{" +++ join "," (flat_map
                     (fun p => match JSON_stringify (snd p) with
                               | Some text => [QuoteJSONString (fst p) +++ ":" +++ text]
                               | None => []
                               end) props) +++ "}")).
    assert (E : flat_map
                  (fun p => match JSON_stringify (snd p) with
                            | Some text => [QuoteJSONString (fst p) +++ ":" +++ text]
                            | None => []
                            end) props
                = map (fun p => QuoteJSONString (fst p) +++ ":null") props).
    { induction A as [|[k v] props E A IH]; [reflexivity|].
      simpl in E. subst v. cbn [flat_map map]. rewrite IH. reflexivity. }
    now rewrite E.
  - apply join_no_line_feed; [reflexivity|].
    apply Forall_forall. intros x I. apply in_map_iff in I as [p [<- _]].
    now rewrite occurs_append, QuoteJSONString_no_line_feed.
Qed.

Lemma updateOwn_allNull (key : string) (props : Object) :
  allNull props -> allNull (updateOwn key JNull props).
Proof.
  unfold allNull. induction props as [|[k v] props IH]; intros A; [constructor|].
  inversion A; subst. simpl.
  destruct (String.eqb k key); constructor; auto.
Qed.

Lemma insertIndex_allNull (i : Z) (key : string) (props : Object) :
  allNull props -> allNull (insertIndex i key JNull props).
Proof.
  unfold allNull. induction props as [|[k v] props IH]; intros A.
  - repeat constructor.
  - inversion A; subst. simpl.
    destruct (arrayIndex k) as [j|]; [destruct (j <? i)|]; constructor; auto.
Qed.

Lemma insertOwn_allNull (key : string) (props : Object) :
  allNull props -> allNull (insertOwn key JNull props).
Proof.
  intros A. unfold insertOwn. destruct (arrayIndex key).
  - now apply insertIndex_allNull.
  - apply Forall_app. split; [exact A | repeat constructor].
Qed.

Lemma assignAll_allNull (keys : list string) (patch : PlainObject) :
  allNull (own patch) -> allNull (own (assignAll patch keys)).
Proof.
  unfold assignAll. revert patch.
  induction keys as [|key keys IH]; intros patch A; [exact A|].
  simpl. apply IH. unfold assignNull.
  destruct (has_key (own patch) key); simpl; [now apply updateOwn_allNull|].
  destruct (String.eqb key "__proto__" && inheritsObjectPrototype patch); simpl;
    [exact A | now apply insertOwn_allNull].
Qed.

Lemma split_no_separator (sep : ascii) (s : string) :
  occurs sep s = false -> split sep s = [s].
Proof.
  induction s as [|c s IH]; [reflexivity|]. simpl. intros O.
  apply orb_false_iff in O as [C O]. rewrite Ascii.eqb_sym in C.
  rewrite IH by exact O.
  destruct (Ascii.eqb c sep) eqn:E; [|reflexivity].
  rewrite Ascii.eqb_sym in E. congruence.
Qed.

(** X8.  [removeSignals] never fails on its keys.  Whatever keys are given,
    none or many, the patch is a JSON text in braces without a line feed,
    and the call returns what the option lines return followed by exactly
    one signals line that carries the text; without options, the event, the
    signals line and the terminator. *)
Theorem removeSignals_sends_one_line (signalKeys : SignalKeys)
    (options : option Options) :
  exists text,
    occurs LF_char text = false
    /\ removeSignals signalKeys options
       = (optionLines <- eachOptionIsADataLine (rest (orEmpty options)) ;;
          Normal (send datastar_patch_signals
                    (optionLines ++ ["signals {" +++ text +++ "}"])
                    (event (orEmpty options))))
    /\ removeSignals signalKeys None
       = Normal ["event: datastar-patch-signals" +++ LF;
                 dataLine DatastarDatalineSignals ("{" +++ text +++ "}");
                 LF].
Proof.
  destruct (stringify_nulls (own (assignAll emptyObject (keysOf signalKeys))))
    as [text [S O]].
  { apply assignAll_allNull. constructor. }
  exists text. split; [exact O|].
  assert (L : eachNewlineIsADataLine DatastarDatalineSignals ("{" +++ text +++ "}")
              = ["signals {" +++ text +++ "}"]).
  { unfold eachNewlineIsADataLine. rewrite split_no_separator; [reflexivity|].
    simpl. rewrite occurs_append, O. reflexivity. }
  assert (M : missing (Some ("{" +++ text +++ "}")) = false)
    by (rewrite missing_blank; reflexivity).
  unfold removeSignals. cbv zeta. rewrite S. split.
  - rewrite patchSignals_outcome, M. now rewrite L.
  - rewrite patchSignals_outcome, M. rewrite L. reflexivity.
Qed.

Lemma has_key_updateOwn (key k : string) (v : Jsonifiable) (props : Object) :
  has_key (updateOwn key v props) k = has_key props k.
Proof.
  unfold has_key. induction props as [|[a w] props IH]; [reflexivity|]. simpl.
  destruct (String.eqb a key); simpl; [reflexivity | now rewrite IH].
Qed.

Lemma has_key_app (props more : Object) (k : string) :
  has_key (props ++ more) k = has_key props k || has_key more k.
Proof. unfold has_key. apply existsb_app. Qed.

Lemma has_key_insertIndex (i : Z) (key k : string) (v : Jsonifiable) (props : Object) :
  has_key (insertIndex i key v props) k = String.eqb key k || has_key props k.
Proof.
  unfold has_key. induction props as [|[a w] props IH]; simpl.
  - reflexivity.
  - destruct (arrayIndex a) as [j|]; [destruct (j <? i)|]; simpl; try reflexivity.
    rewrite IH. now rewrite !orb_assoc, (orb_comm (String.eqb a k)).
Qed.

Lemma has_key_insertOwn (key k : string) (v : Jsonifiable) (props : Object) :
  has_key (insertOwn key v props) k = String.eqb key k || has_key props k.
Proof.
  unfold insertOwn. destruct (arrayIndex key).
  - apply has_key_insertIndex.
  - rewrite has_key_app. unfold has_key at 2. simpl.
    now rewrite orb_false_r, orb_comm.
Qed.

Lemma has_key_assignNull (patch : PlainObject) (key k : string) :
  has_key (own patch) k = true \/ (key = k /\ k <> "__proto__") ->
  has_key (own (assignNull patch key)) k = true.
Proof.
  intros H. unfold assignNull.
  destruct (has_key (own patch) key) eqn:K; simpl.
  - rewrite has_key_updateOwn. destruct H as [H | [-> _]]; assumption.
  - destruct (String.eqb key "__proto__" && inheritsObjectPrototype patch) eqn:P; simpl.
    + destruct H as [H | [-> N]]; [exact H|].
      apply String.eqb_neq in N. rewrite N in P. discriminate.
    + rewrite has_key_insertOwn. destruct H as [-> | [-> _]];
        [apply orb_true_r | now rewrite String.eqb_refl].
Qed.

Lemma has_key_assignAll (keys : list string) (patch : PlainObject) (k : string) :
  k <> "__proto__" ->
  has_key (own patch) k = true \/ In k keys ->
  has_key (own (assignAll patch keys)) k = true.
Proof.
  intros N. unfold assignAll. revert patch.
  induction keys as [|key keys IH]; intros patch H; simpl.
  - destruct H as [H | []]. exact H.
  - apply IH. destruct H as [H | [-> | I]]; [left | left | now right].
    + apply has_key_assignNull. now left.
    + apply has_key_assignNull. right. now split.
Qed.

Lemma updateOwn_null_same (key : string) (props : Object) :
  allNull props -> updateOwn key JNull props = props.
Proof.
  unfold allNull. induction props as [|[k v] props IH]; intros A; [reflexivity|].
  inversion A as [|? ? E A']; subst. simpl in E. subst v. simpl.
  destruct (String.eqb k key); [reflexivity | now rewrite IH].
Qed.

(** X9.  Naming again, at the end, a key already given changes nothing in
    what [removeSignals] returns, for every key other than ["__proto__"]. *)
Theorem removeSignals_repeated_key (keys : list string) (k : string)
    (options : option Options) :
  In k keys ->
  k <> "__proto__" ->
  removeSignals (ManyKeys (keys ++ [k])) options = removeSignals (ManyKeys keys) options.
Proof.
  intros I N. unfold removeSignals. simpl keysOf. cbv zeta.
  unfold assignAll. rewrite fold_left_app. simpl fold_left.
  fold (assignAll emptyObject keys).
  unfold assignNull at 1.
  rewrite (has_key_assignAll keys emptyObject k N) by now right.
  simpl own. rewrite updateOwn_null_same; [reflexivity|].
  apply assignAll_allNull. constructor.
Qed.

Lemma removeSignals_repeated_key_witness :
  removeSignals (ManyKeys (["a"; "b"] ++ ["a"])) None
  = removeSignals (ManyKeys ["a"; "b"]) None.
Proof.
  apply (removeSignals_repeated_key ["a"; "b"] "a" None).
  - now left.
  - discriminate.
Defined.

(** Key lists that hold no ["__proto__"]. *)
Lemma removeSignals_is_null_patch_witness :
  removeSignals (ManyKeys ["b"; "10"; "2"]) None
  = patchSignals (JSON_stringify (nullPatch ["b"; "10"; "2"])) None.
Proof.
  apply (removeSignals_is_null_patch ["b"; "10"; "2"] None).
  simpl. intros H. repeat (destruct H as [H | H]; [discriminate H|]). exact H.
Defined.

End SignalPatch.

(** ** [executeScript] *)

Section ScriptExecution.

Lemma scriptTag_visible (script : string) (o : ScriptOptions) :
  blank (scriptTag script o) = false.
Proof. reflexivity. Qed.

(** X10.  [executeScript] is the patch of one element: for every script and
    all options it returns what [patchElements] returns for the script tag
    with the options [{mode: "append", selector: "body"}] and the same event
    fields, and that call never fails. *)
Theorem executeScript_is_patchElements (script : string)
    (options : option ScriptOptions) :
  let o := match options with Some o => o | None => noScriptOptions end in
  patchElements (Some (scriptTag script o))
    (bag (scriptEvent o)
       [(DatastarDatalinePatchMode, JString "append");
        (DatastarDatalineSelector, JString "body")])
  = Normal (executeScript script options).
Proof.
  intros o. unfold bag.
  rewrite (patchElements_visible_payload _ _ ["mode append"; "selector body"]
             (scriptTag_visible script o)); [reflexivity | intros _; reflexivity | reflexivity].
Qed.



End ScriptExecution.

(** ** [readSignals]: the body *)

Section BodyReading.

Variable HOST : option string.
Variable URL_searchParams : string -> Completion (list (string * string)).
Variable JSON_parse : string -> Completion Jsonifiable.

Local Abbreviation reading := (readSignals HOST URL_searchParams JSON_parse).

Lemma fold_left_append (chunks : list string) (start : string) :
  fold_left String.append chunks start = start +++ chunked chunks.
Proof.
  revert start.
  induction chunks as [|chunk chunks IH]; intros start.
  - simpl. now rewrite append_empty_r.
  - simpl fold_left. rewrite IH, append_assoc.
    change (chunked (chunk :: chunks)) with (join "" (chunk :: chunks)).
    now rewrite join_empty_cons.
Qed.

Lemma bodyOf_chunked (request : IncomingMessage) :
  bodyOf request = chunked (chunks request).
Proof. unfold bodyOf. now rewrite fold_left_append. Qed.

(** X12.  For a request of any method other than GET, [readSignals] does not
    look at the URL and never rejects; and what it returns depends on the
    body alone, not on the chunks the body arrives in: two such requests
    with the same body text are answered alike. *)
Theorem readSignals_reads_the_whole_body (request : IncomingMessage) :
  method request <> "GET" ->
  (exists result, reading request = Normal result)
  /\ (forall request',
      method request' <> "GET" ->
      chunked (chunks request') = chunked (chunks request) ->
      reading request' = reading request).
Proof.
  intros N. split.
  - rewrite readSignals_outcome, submitted_body by assumption. simpl bind.
    destruct (JSON_parse (bodyOf request)) as [signals|e].
    + destruct (isRecord (Value signals)); now eexists.
    + destruct (onCatch_failure e) as [message E]. rewrite E. now eexists.
  - intros request' N' E.
    rewrite !readSignals_outcome, !submitted_body by assumption.
    simpl bind. rewrite !bodyOf_chunked, E.
    unfold notRecordMessage.
    apply String.eqb_neq in N, N'. now rewrite N, N'.
Qed.

End BodyReading.

Lemma readSignals_reads_the_whole_body_witness :
  readSignals None (sampleURL "") sampleParse (putRequest ["{"; "}"])
  = readSignals None (sampleURL "") sampleParse (postRequest ["{}"]).
Proof.
  destruct (readSignals_reads_the_whole_body None (sampleURL "") sampleParse
              (postRequest ["{}"])) as [_ S].
  - discriminate.
  - apply S; [discriminate | reflexivity].
Defined.

Lemma readSignals_returns_a_variant_witness :
  exists result,
    readSignals None (sampleURL "") sampleParse (postRequest ["not json"]) = Normal result.
Proof.
  destruct (readSignals_returns_a_variant None (sampleURL "") sampleParse
              (postRequest ["not json"]) (Some "not json") eq_refl) as [R _].
  exact R.
Defined.

Lemma readSignals_by_shape_witness :
  readSignals None (sampleURL "") sampleParse (postRequest ["42"])
  = Normal (Failure "Parsed JSON body is not of type record").
Proof.
  destruct (readSignals_by_shape None (sampleURL "") sampleParse
              (postRequest ["42"]) "42" (JNumber (integer 42)) eq_refl eq_refl) as [S _].
  apply S. reflexivity.
Defined.

(** ** The Node adapter *)

Section NodeAdapter.

Lemma patchSignals_is_frame (signals : option string) (options : option Options)
    (lines : list string) :
  patchSignals signals options = Normal lines ->
  exists dataLines, lines = send datastar_patch_signals dataLines (event (orEmpty options)).
Proof.
  rewrite patchSignals_outcome. destruct (missing signals); [discriminate|].
  destruct (eachOptionIsADataLine (rest (orEmpty options))); simpl; [|discriminate].
  intros [= <-]. now eexists.
Qed.

Lemma onNode_allOrNothing (inherited : Completion (list string)) :
  (forall lines, inherited = Normal lines ->
                 exists event dataLines options, lines = send event dataLines options) ->
  allOrNothing (onNode inherited).
Proof.
  intros F log. unfold onNode, andThen, lift, perform, ret.
  destruct inherited as [lines|e]; [|reflexivity].
  destruct (F lines eq_refl) as [event [dataLines [options ->]]].
  eexists. split; [reflexivity|]. split; [reflexivity|].
  apply frame_text_end.
Qed.

Lemma removeElements_is_frame (selector elements : option string)
    (options : option DatastarEventOptions) (lines : list string) :
  removeElements selector elements options = Normal lines ->
  exists event dataLines ev, lines = send event dataLines ev.
Proof.
  unfold removeElements.
  destruct (absentOrEmpty selector && missing elements); [discriminate|].
  intros E. apply patchElements_is_frame in E as [optionLines [payload [_ [_ ->]]]].
  now do 3 eexists.
Qed.

(** X13.  On the Node adapter every method of the generator writes all of
    its event or nothing.  A call that returns has written exactly one
    chunk, the text of the lines it returns, which ends with a blank line; a
    call that throws has written nothing. *)
Theorem node_methods_write_whole_events :
  (forall elements options, allOrNothing (nodePatchElements elements options))
  /\ (forall signals options, allOrNothing (nodePatchSignals signals options))
  /\ (forall selector elements options,
      allOrNothing (nodeRemoveElements selector elements options))
  /\ (forall signalKeys options, allOrNothing (nodeRemoveSignals signalKeys options))
  /\ (forall script options, allOrNothing (nodeExecuteScript script options)).
Proof.
  repeat split; intros; apply onNode_allOrNothing; intros lines E.
  - apply patchElements_is_frame in E as [optionLines [payload [_ [_ ->]]]].
    now do 3 eexists.
  - apply patchSignals_is_frame in E as [dataLines ->]. now do 3 eexists.
  - now apply removeElements_is_frame in E.
  - unfold removeSignals in E. cbv zeta in E.
    apply patchSignals_is_frame in E as [dataLines ->]. now do 3 eexists.
  - injection E as <-. unfold executeScript. now do 3 eexists.
Qed.

(** The overriding [send] is the adapter's method on what the inherited
    [send] returns. *)
Lemma nodeSend_onNode (event : EventType) (dataLines : list string)
    (options : DatastarEventOptions) :
  nodeSend event dataLines options = onNode (Normal (send event dataLines options)).
Proof. reflexivity. Qed.

Variable sseHeaders : Object.

Lemma construct_log (log : list Call) :
  andThen (construct sseHeaders) (fun _ => perform ReqOnClose) log
  = (Normal tt, log ++ opening sseHeaders).
Proof.
  unfold andThen, construct, perform, opening. simpl.
  now rewrite <- !app_assoc.
Qed.

Lemma stream_unfold (onStart : Effect unit) (options : option StreamOptions)
    (log : list Call) :
  stream sseHeaders onStart options log
  = tryCatch
      (andThen onStart (fun _ =>
         if negb (keptAlive options) then perform ResEnd else ret tt))
      (fun error =>
         andThen (callOnAbort options) (fun _ =>
           match (match options with Some o => onError o | None => None end) with
           | Some handler => andThen (handler error) (fun _ => perform ResEnd)
           | None => andThen (perform ResEnd) (fun _ => throw error)
           end))
      (log ++ opening sseHeaders).
Proof.
  unfold stream, andThen at 1 2, construct, perform at 1 2 3, opening. simpl.
  now rewrite <- !app_assoc.
Qed.

(** X14.  [stream] opens the response before the callback runs: the head
    with status 200 and the SSE headers, flushed, and the listener for the
    request's close.  When the callback returns, [stream] returns, and it
    ends the response exactly when [keepalive] is not set. *)
Theorem stream_ends_unless_kept_alive (onStart : Effect unit)
    (options : option StreamOptions) (log after : list Call) :
  onStart (log ++ opening sseHeaders) = (Normal tt, after) ->
  stream sseHeaders onStart options log
  = (Normal tt, if keptAlive options then after else after ++ [ResEnd]).
Proof.
  intros S. rewrite stream_unfold. unfold tryCatch, andThen. rewrite S.
  destruct (keptAlive options); reflexivity.
Qed.

(** X15.  When the callback throws, [stream] calls [onAbort] and then ends
    the response on every path on which the callbacks return: with an
    [onError] callback it calls it with the error, ends the response and
    returns; without one it ends the response and throws the error on.
    When [onAbort] or [onError] throws, that error is thrown on and
    [stream] does not end the response. *)
Theorem stream_ends_after_failure (onStart : Effect unit)
    (options : option StreamOptions) (error : unknown)
    (log failed : list Call) :
  onStart (log ++ opening sseHeaders) = (Throw error, failed) ->
  let handler := match options with Some o => onError o | None => None end in
  (forall thrown aborted,
      callOnAbort options failed = (Throw thrown, aborted) ->
      stream sseHeaders onStart options log = (Throw thrown, aborted))
  /\ (forall aborted,
      callOnAbort options failed = (Normal tt, aborted) ->
      (handler = None ->
       stream sseHeaders onStart options log = (Throw error, aborted ++ [ResEnd]))
      /\ (forall h handled,
          handler = Some h -> h error aborted = (Normal tt, handled) ->
          stream sseHeaders onStart options log = (Normal tt, handled ++ [ResEnd]))
      /\ (forall h thrown handled,
          handler = Some h -> h error aborted = (Throw thrown, handled) ->
          stream sseHeaders onStart options log = (Throw thrown, handled))).
Proof.
  intros S handler.
  assert (E : stream sseHeaders onStart options log
              = andThen (callOnAbort options) (fun _ =>
                  match handler with
                  | Some h => andThen (h error) (fun _ => perform ResEnd)
                  | None => andThen (perform ResEnd) (fun _ => throw error)
                  end) failed).
  { rewrite stream_unfold. unfold tryCatch, andThen at 1. now rewrite S. }
  rewrite E. clear E. split.
  - intros thrown aborted A. unfold andThen. now rewrite A.
  - intros aborted A.
    assert (K : forall k : unit -> Effect unit,
               andThen (callOnAbort options) k failed = k tt aborted)
      by (intros k; unfold andThen; now rewrite A).
    rewrite K. clear K.
    split; [|split].
    + intros ->. reflexivity.
    + intros h handled -> H. unfold andThen. now rewrite H.
    + intros h thrown handled -> H. unfold andThen. now rewrite H.
Qed.

End NodeAdapter.

Lemma stream_ends_unless_kept_alive_witness :
  stream [] (andThen (nodePatchSignals (Some "{}") None) (fun _ => ret tt)) None []
  = (Normal tt,
     opening [] ++ [ResWrite (join "" ["event: datastar-patch-signals" +++ LF;
                                        "data: signals {}" +++ LF; LF]); ResEnd]).
Proof.
  rewrite (stream_ends_unless_kept_alive []
             (andThen (nodePatchSignals (Some "{}") None) (fun _ => ret tt)) None []
             (opening [] ++ [ResWrite (join "" ["event: datastar-patch-signals" +++ LF;
                                                 "data: signals {}" +++ LF; LF])]));
    reflexivity.
Defined.

Lemma stream_ends_after_failure_witness :
  stream [] failingHandler quietOptions []
  = (Normal tt,
     opening [] ++ [ResWrite (join "" ["event: datastar-patch-elements" +++ LF;
                                        "data: elements <p id=a></p>" +++ LF; LF]); ResEnd])
  /\ stream [] failingHandler None []
     = (Throw (Error "handler failed"),
        opening [] ++ [ResWrite (join "" ["event: datastar-patch-elements" +++ LF;
                                           "data: elements <p id=a></p>" +++ LF; LF]); ResEnd]).
Proof.
  split.
  - destruct (stream_ends_after_failure [] failingHandler quietOptions
                (Error "handler failed") []
                (opening [] ++ [ResWrite (join "" ["event: datastar-patch-elements" +++ LF;
                                                    "data: elements <p id=a></p>" +++ LF; LF])])
                eq_refl) as [_ A].
    destruct (A _ eq_refl) as [_ [H _]].
    rewrite (H (fun _ => ret tt) _ eq_refl eq_refl). reflexivity.
  - destruct (stream_ends_after_failure [] failingHandler None
                (Error "handler failed") []
                (opening [] ++ [ResWrite (join "" ["event: datastar-patch-elements" +++ LF;
                                                    "data: elements <p id=a></p>" +++ LF; LF])])
                eq_refl) as [_ A].
    destruct (A _ eq_refl) as [N _].
    rewrite (N eq_refl). reflexivity.
Defined.
